(** * DicomStudy: aggregation of a directory of DICOM instances

    A shallow embedding of [org/nema/medical/mint/DicomStudy.py] and the
    properties of the study aggregate: construction by a bottom-up
    directory walk, the identifier index, positional access, output
    redirection, the textual dump and the tidy traversal.

    Python objects become records, the interpreter state a [Machine] that is
    threaded through every call, and a raised exception a [Raise] result.
    The classes [DataDictionary] and [DicomInstance] live in other modules
    of the package; they enter as the interface [Collaborators]. *)

From Stdlib Require Import Ascii String ZArith.
From stdpp Require Import gmap strings list.

Open Scope string_scope.
Open Scope list_scope.
Open Scope Z_scope.
Open Scope nat_scope.

(** ** Exceptions and results *)

Inductive exn :=
| IOError (msg : string)
| NameError (msg : string)
| IndexError (msg : string)
| KeyError (key : string)
| ValueError (msg : string)
| CollaboratorError (msg : string).

Inductive result (A : Type) :=
| Ok (a : A)
| Raise (e : exn).

Arguments Ok {A} a.
Arguments Raise {A} e.

Definition is_ok {A} (r : result A) : bool :=
  match r with Ok _ => true | Raise _ => false end.

(** The line terminator written by [print] and by ["\n"]. *)
Definition nl : string := String "010"%char EmptyString.

(** ** The file system

    A tree of directories and regular files. The order of a directory's
    entries is the order in which [os.listdir] reports them. *)

#[warnings="-register-all"] Inductive node :=
| File (content : string)
| Dir (entries : list (string * node)).

Record FS := {
  root : node;
  cwd : list string
}.

Fixpoint assoc (name : string) (es : list (string * node)) : option node :=
  match es with
  | [] => None
  | (n, c) :: es' => if String.eqb n name then Some c else assoc name es'
  end.

Fixpoint lookup_path (n : node) (p : list string) : option node :=
  match p with
  | [] => Some n
  | c :: p' =>
      match n with
      | Dir es =>
          match assoc c es with
          | Some n' => lookup_path n' p'
          | None => None
          end
      | File _ => None
      end
  end.

Fixpoint put_entry (name : string) (c : node) (es : list (string * node))
  : list (string * node) :=
  match es with
  | [] => [(name, c)]
  | (n, c0) :: es' =>
      if String.eqb n name then (n, c) :: es' else (n, c0) :: put_entry name c es'
  end.

Fixpoint store (n : node) (p : list string) (c : node) : node :=
  match p with
  | [] => c
  | x :: p' =>
      match n with
      | Dir es =>
          match assoc x es with
          | Some n' => Dir (put_entry x (store n' p' c) es)
          | None => match p' with [] => Dir (put_entry x c es) | _ => n end
          end
      | File _ => n
      end
  end.

Definition startswith_slash (s : string) : bool :=
  match s with
  | String c _ => Ascii.eqb c "/"
  | EmptyString => false
  end.

Fixpoint endswith_slash (s : string) : bool :=
  match s with
  | EmptyString => false
  | String c EmptyString => Ascii.eqb c "/"
  | String _ s' => endswith_slash s'
  end.

Fixpoint split_slash (s : string) : list string :=
  match s with
  | EmptyString => [EmptyString]
  | String c s' =>
      if Ascii.eqb c "/" then EmptyString :: split_slash s'
      else match split_slash s' with
           | x :: xs => String c x :: xs
           | [] => [String c EmptyString]
           end
  end.

(** One step of path-name resolution: the directory reached so far must
    exist and be a directory before the next component is looked at. *)
Definition walk_component (r : node) (acc : option (list string)) (c : string)
  : option (list string) :=
  match acc with
  | None => None
  | Some p =>
      match lookup_path r p with
      | Some (Dir _) =>
          if String.eqb c "" || String.eqb c "." then Some p
          else if String.eqb c ".." then Some (removelast p)
          else Some (p ++ [c])
      | _ => None
      end
  end.

(** The empty path names nothing (ENOENT). *)
Definition resolve (fs : FS) (path : string) : option (list string) :=
  if String.eqb path "" then None
  else fold_left (walk_component (root fs)) (split_slash path)
         (Some (if startswith_slash path then [] else cwd fs)).

Definition stat (fs : FS) (path : string) : option node :=
  match resolve fs path with
  | Some p => lookup_path (root fs) p
  | None => None
  end.

Definition dirs_of (es : list (string * node)) : list string :=
  omap (fun e => match snd e with Dir _ => Some (fst e) | File _ => None end) es.

Definition nondirs_of (es : list (string * node)) : list string :=
  omap (fun e => match snd e with File _ => Some (fst e) | Dir _ => None end) es.

(** The sub-directories of a listing, visited in listing order; [f] receives
    the position of the entry, its name and the directory itself. *)
Section ConcatSubdirs.

Context {X : Type} (f : nat -> string -> node -> list X).

Fixpoint concat_subdirs (k : nat) (l : list (string * node)) : list X :=
  match l with
  | [] => []
  | (name, c) :: l' =>
      match c with
      | Dir _ => f k name c
      | File _ => []
      end ++ concat_subdirs (S k) l'
  end.

End ConcatSubdirs.

Module os.

Module path.

(** [posixpath.join] on two arguments. *)
Definition join (a b : string) : string :=
  if startswith_slash b then b
  else if String.eqb a "" || endswith_slash a then a +:+ b
  else a +:+ "/" +:+ b.

Definition isdir (fs : FS) (p : string) : bool :=
  match stat fs p with
  | Some (Dir _) => true
  | _ => false
  end.

End path.

(** [os.access(p, os.F_OK)]. *)
Definition access (fs : FS) (p : string) : bool :=
  match stat fs p with
  | Some _ => true
  | None => false
  end.

(** [os.walk(top, topdown=False)]: the entries of [top] are split into
    [dirs] and [nondirs]; the triples of every name in [dirs] come first,
    in listing order, and the triple of [top] itself comes last. A [top]
    that cannot be listed yields nothing: the error of [os.listdir] is
    swallowed when no [onerror] is given. *)
Fixpoint walk_node (top : string) (n : node) {struct n}
  : list (string * list string * list string) :=
  match n with
  | File _ => []
  | Dir es =>
      concat_subdirs (fun _ name c => walk_node (path.join top name) c) 0 es
      ++ [(top, dirs_of es, nondirs_of es)]
  end.

Definition walk (fs : FS) (top : string)
  : list (string * list string * list string) :=
  match stat fs top with
  | Some n => walk_node top n
  | None => []
  end.

End os.

(** ** The interpreter state

    [World] is what the program and its collaborators act on: the file
    system, what has been written to standard output, the file objects
    created by [open] (a file object is named by its position in
    [ofiles]), and for every file object the text written through it that
    it still holds: a file object buffers, and what it holds reaches the
    file when the object is closed (the flush of a full buffer before that
    is not modelled). *)

Record ofile := {
  of_path : list string;
  of_closed : bool
}.

Record World := {
  fs : FS;
  stdout : string;
  ofiles : list ofile;
  written : gmap nat string
}.

Definition set_root (r : node) (w : World) : World :=
  {| fs := {| root := r; cwd := cwd (fs w) |};
     stdout := stdout w;
     ofiles := ofiles w;
     written := written w |}.

(** [print] and [sys.stdout.write]. *)
Definition print (s : string) (w : World) : result unit * World :=
  (Ok tt, {| fs := fs w; stdout := stdout w +:+ s; ofiles := ofiles w;
             written := written w |}).

(** [open(path, "w")]: creates the file or truncates it; the new file
    object holds no text. *)
Definition open_w (path : string) (w : World) : result nat * World :=
  match resolve (fs w) path with
  | None => (Raise (IOError ("No such file or directory: " +:+ path)), w)
  | Some p =>
      match lookup_path (root (fs w)) p with
      | Some (Dir _) => (Raise (IOError ("Is a directory: " +:+ path)), w)
      | _ =>
          let w' := set_root (store (root (fs w)) p (File "")) w in
          (Ok (length (ofiles w)),
           {| fs := fs w'; stdout := stdout w';
              ofiles := ofiles w ++ [{| of_path := p; of_closed := false |}];
              written := <[length (ofiles w) := ""]> (written w) |})
      end
  end.

(** The text held by the file object [f]. *)
Definition held (f : nat) (w : World) : string :=
  default "" (written w !! f).

Fixpoint string_drop (n : nat) (s : string) : string :=
  match n, s with
  | 0, _ => s
  | S n', String _ s' => string_drop n' s'
  | S _, EmptyString => EmptyString
  end.

(** Writing [data] from the start of a file that contains [c]. *)
Definition overwrite (c data : string) : string :=
  data +:+ string_drop (String.length data) c.

(** [f.write(s)]: the text goes to the file object, not yet to the file. *)
Definition file_write (f : nat) (s : string) (w : World) : result unit * World :=
  match ofiles w !! f with
  | Some o =>
      if of_closed o then (Raise (ValueError "I/O operation on closed file"), w)
      else
        (Ok tt,
         {| fs := fs w; stdout := stdout w; ofiles := ofiles w;
            written := <[f := held f w +:+ s]> (written w) |})
  | None => (Raise (ValueError "I/O operation on closed file"), w)
  end.

(** [f.close()]: what the file object holds is written to its file, from
    the position the object started at, that is the start of the file; a
    file that is no longer there under its name is out of reach. Closing a
    closed file is allowed and does nothing. *)
Definition file_close (f : nat) (w : World) : result unit * World :=
  match ofiles w !! f with
  | Some o =>
      if of_closed o then (Ok tt, w)
      else
        (Ok tt,
         {| fs := {| root :=
                       match lookup_path (root (fs w)) (of_path o) with
                       | Some (File c) =>
                           store (root (fs w)) (of_path o)
                                 (File (overwrite c (held f w)))
                       | _ => root (fs w)
                       end;
                     cwd := cwd (fs w) |};
            stdout := stdout w;
            ofiles := alter (fun o => {| of_path := of_path o; of_closed := true |})
                            f (ofiles w);
            written := delete f (written w) |})
  | None => (Ok tt, w)
  end.

(** Calls made on [DicomInstance] objects, in the order they are made. *)
Inductive call :=
| CallTidy (oid : nat)
| CallDebug (oid : nat) (sink : option nat).

Global Instance call_eq_dec : EqDecision call.
Proof. solve_decision. Defined.

Record Machine := {
  world : World;
  calls : list call;
  next_oid : nat
}.

(** ** Computations that may raise *)

Definition M (S A : Type) : Type := S -> result A * S.

Definition ret {S A} (a : A) : M S A := fun s => (Ok a, s).

Definition raise {S A} (e : exn) : M S A := fun s => (Raise e, s).

Definition bind {S A B} (c : M S A) (k : A -> M S B) : M S B :=
  fun s =>
    match c s with
    | (Ok a, s') => k a s'
    | (Raise e, s') => (Raise e, s')
    end.

Notation "'let*' x := c 'in' k" := (bind c (fun x => k))
  (at level 10, x name, c at level 100, k at level 200).
Notation "c ;; k" := (bind c (fun _ => k))
  (at level 100, k at level 200, right associativity).

Definition lift_result {S A} (r : result A) : M S A := fun s => (r, s).

(** [for x in l: body(x)] *)
Fixpoint for_each {S A} (l : list A) (body : A -> M S unit) : M S unit :=
  match l with
  | [] => ret tt
  | x :: l' => body x ;; for_each l' body
  end.

(** An action on the world, run on the machine. *)
Definition io {A} (f : World -> result A * World) : M Machine A :=
  fun m =>
    let (r, w') := f (world m) in
    (r, {| world := w'; calls := calls m; next_oid := next_oid m |}).

Definition get_world : M Machine World := fun m => (Ok (world m), m).

(** ** The collaborators

    [DataDictionary] and [DicomInstance] are imported from sibling modules.
    Their constructors and the methods [tidy] and [debug] act on the world
    and may raise; [isDicom] inspects a file and the two identifier
    accessors read the instance. *)

Class Collaborators := {
  DataDictionary : Type;
  DataDictionary_new : string -> World -> result DataDictionary * World;
  DicomInstance : Type;
  isDicom : FS -> string -> bool;
  DicomInstance_new :
    string -> DataDictionary -> World -> result DicomInstance * World;
  DicomInstance_sopInstanceUID : DicomInstance -> string;
  DicomInstance_studyInstanceUID : DicomInstance -> string;
  DicomInstance_tidy : DicomInstance -> World -> result unit * World;
  DicomInstance_debug :
    DicomInstance -> option nat -> World -> result unit * World
}.

(** A [DicomInstance] object: its identity, the file name its constructor
    was given, and the instance it holds. *)
Record object `{Collaborators} := {
  oid : nat;
  dcmName : string;
  inst : DicomInstance
}.

Module DicomStudy.
Section DicomStudy.

Context `{C : Collaborators}.

Record t := {
  __dcmDir : string;
  __instances : list object;
  __instancesByUID : gmap string object;
  __dataDictionary : DataDictionary;
  __output : option nat
}.

(** A method runs on [self] and the machine. *)
Definition method (A : Type) : Type := M (t * Machine) A.

Definition get_self : method t := fun s => (Ok (fst s), s).

Definition put_self (self : t) : method unit := fun s => (Ok tt, (self, snd s)).

Definition on_machine {A} (c : M Machine A) : method A :=
  fun s => let (r, m') := c (snd s) in (r, (fst s, m')).

(** [DicomInstance(dcmName, dataDictionary)]: a new object. *)
Definition new_instance (dcmName : string) (dd : DataDictionary)
  : M Machine object :=
  fun m =>
    match DicomInstance_new dcmName dd (world m) with
    | (Ok i, w') =>
        (Ok {| oid := next_oid m; dcmName := dcmName; inst := i |},
         {| world := w'; calls := calls m; next_oid := S (next_oid m) |})
    | (Raise e, w') =>
        (Raise e, {| world := w'; calls := calls m; next_oid := next_oid m |})
    end.

(** [instance.tidy()] *)
Definition call_tidy (o : object) : M Machine unit :=
  fun m =>
    let (r, w') := DicomInstance_tidy (inst o) (world m) in
    (r, {| world := w'; calls := calls m ++ [CallTidy (oid o)];
           next_oid := next_oid m |}).

(** [instance.debug(output)] *)
Definition call_debug (o : object) (sink : option nat) : M Machine unit :=
  fun m =>
    let (r, w') := DicomInstance_debug (inst o) sink (world m) in
    (r, {| world := w'; calls := calls m ++ [CallDebug (oid o) sink];
           next_oid := next_oid m |}).

Definition numInstances (self : t) : Z :=
  Z.of_nat (length (__instances self)).

(** [self.__instances[n]]: a negative [n] counts from the end. (For an [n]
    too large for a machine word the text of the [IndexError] is another
    one.) *)
Definition instance (self : t) (n : Z) : result object :=
  let len := Z.of_nat (length (__instances self)) in
  let i := if (n <? 0)%Z then (n + len)%Z else n in
  if (i <? 0)%Z || (len <=? i)%Z then
    Raise (IndexError "list index out of range")
  else
    match __instances self !! Z.to_nat i with
    | Some o => Ok o
    | None => Raise (IndexError "list index out of range")
    end.

Definition instanceByUID (self : t) (sopInstanceUID : string) : result object :=
  match __instancesByUID self !! sopInstanceUID with
  | Some o => Ok o
  | None => Raise (KeyError sopInstanceUID)
  end.

Definition studyInstanceUID (self : t) : result string :=
  if (numInstances self >? 0)%Z then
    match instance self 0 with
    | Ok o => Ok (DicomInstance_studyInstanceUID (inst o))
    | Raise e => Raise e
    end
  else Ok "".

(** In [self.__output(close)] the name [close] is not bound, so the
    statement raises before anything is called. *)
Definition setOutput (output : string) : method unit :=
  if String.eqb output "" then ret tt
  else
    let* self := get_self in
    match __output self with
    | Some _ => raise (NameError "global name 'close' is not defined")
    | None => ret tt
    end ;;
    let* w := on_machine get_world in
    if os.access (fs w) output then
      raise (IOError ("File already exists - " +:+ output))
    else
      let* f := on_machine (io (open_w output)) in
      put_self {| __dcmDir := __dcmDir self;
                  __instances := __instances self;
                  __instancesByUID := __instancesByUID self;
                  __dataDictionary := __dataDictionary self;
                  __output := Some f |}.

Definition tidy : method unit :=
  let* self := get_self in
  on_machine (for_each (__instances self) call_tidy) ;;
  match __output self with
  | Some f => on_machine (io (file_close f))
  | None => ret tt
  end.

(** The first statement of [debug]: the header line. *)
Definition debug_header : method unit :=
  let* self := get_self in
  let* uid := lift_result (studyInstanceUID self) in
  match __output self with
  | None => on_machine (io (print ("> Study " +:+ uid +:+ nl)))
  | Some f => on_machine (io (file_write f ("> Study " +:+ uid +:+ nl)))
  end.

(** The loop of [debug] over [range(0, numInstances)]. *)
Definition debug_instances : method unit :=
  let* self := get_self in
  let numInstances := numInstances self in
  for_each (seqZ 0 numInstances) (fun n =>
    let* instance := lift_result (instance self n) in
    on_machine (call_debug instance (__output self))).

Definition debug : method unit :=
  debug_header ;; debug_instances.

(** The names collected by the first loop of [__read]. *)
Definition dcmNames (fs : FS) (dcmDir : string) : list string :=
  flat_map
    (fun '(root, dirs, files) =>
       filter (fun filename => isDicom fs filename = true)
              (map (os.path.join root) files))
    (os.walk fs dcmDir).

(** The body of the second loop of [__read]. *)
Definition read_one (dcmName : string) : method unit :=
  let* self := get_self in
  let* instance := on_machine (new_instance dcmName (__dataDictionary self)) in
  put_self {| __dcmDir := __dcmDir self;
              __instances := __instances self ++ [instance];
              __instancesByUID :=
                <[DicomInstance_sopInstanceUID (inst instance) := instance]>
                  (__instancesByUID self);
              __dataDictionary := __dataDictionary self;
              __output := __output self |}.

Definition __read : method unit :=
  let* self := get_self in
  let* w := on_machine get_world in
  for_each (dcmNames (fs w) (__dcmDir self)) read_one.

(** The constructor: the new object is returned only when [__init__]
    returns normally. *)
Definition __init__ (dcmDir dataDictionaryUrl : string) : M Machine t :=
  let* w := get_world in
  if negb (os.path.isdir (fs w) dcmDir) then
    raise (IOError ("Directory does not exist - " +:+ dcmDir))
  else
    let* dd := io (DataDictionary_new dataDictionaryUrl) in
    fun m =>
      match __read ({| __dcmDir := dcmDir;
                       __instances := [];
                       __instancesByUID := ∅;
                       __dataDictionary := dd;
                       __output := None |}, m) with
      | (Ok _, (self, m')) => (Ok self, m')
      | (Raise e, (_, m')) => (Raise e, m')
      end.

End DicomStudy.
End DicomStudy.

(** ** Where a collected name comes from

    [located] is [dcmNames] with every name paired with the address of the
    directory that lists it: the positions, from [dcmDir] downwards, of the
    entries that lead to that directory. *)

Fixpoint located (accept : string -> bool) (top : string) (addr : list nat)
    (n : node) {struct n} : list (list nat * string) :=
  match n with
  | File _ => []
  | Dir es =>
      concat_subdirs
        (fun k name c => located accept (os.path.join top name) (addr ++ [k]) c)
        0 es
      ++ map (pair addr)
           (filter (fun filename => accept filename = true)
                   (map (os.path.join top) (nondirs_of es)))
  end.

Definition dcmLocated `{Collaborators} (fs : FS) (dcmDir : string)
  : list (list nat * string) :=
  match stat fs dcmDir with
  | Some n => located (isDicom fs) dcmDir [] n
  | None => []
  end.

(** The directory at address [a] lies below the directory at address [b]. *)
Definition below (a b : list nat) : Prop :=
  exists k rest, a = b ++ k :: rest.

(** In the list [L] every name of a directory comes after the names of all
    the directories below it. *)
Definition subdirectories_first (L : list (list nat * string)) : Prop :=
  forall i j a b f g,
    L !! i = Some (a, f) -> L !! j = Some (b, g) -> below a b -> i < j.

(** ** Statements about a study *)

(** The machine after [s] has been printed. *)
Definition printed (s : string) (m : Machine) : Machine :=
  {| world := {| fs := fs (world m);
                 stdout := stdout (world m) +:+ s;
                 ofiles := ofiles (world m);
                 written := written (world m) |};
     calls := calls m;
     next_oid := next_oid m |}.

Section Statements.

Context `{C : Collaborators}.

(** The calls added to the log between two states. *)
Definition new_calls (s s' : DicomStudy.t * Machine) : list call :=
  drop (length (calls (snd s))) (calls (snd s')).

(** How often [tidy] was called on the object [o]. *)
Definition releases (o : object) (cs : list call) : nat :=
  count_occ call_eq_dec cs (CallTidy (oid o)).

Definition release_calls (l : list object) : list call :=
  map (fun o => CallTidy (oid o)) l.

(** Exactly one release per descriptor, after one [tidy] and still after a
    second one. *)
Definition released_once_per_lifetime (s : DicomStudy.t * Machine) : Prop :=
  let s1 := snd (DicomStudy.tidy s) in
  let s2 := snd (DicomStudy.tidy s1) in
  forall o, o ∈ DicomStudy.__instances (fst s) ->
    releases o (new_calls s s1) = 1 /\ releases o (new_calls s s2) = 1.

(** [instance] fails exactly outside [[0, numInstances)]. *)
Definition fails_exactly_outside_0_count (self : DicomStudy.t) (n : Z) : Prop :=
  is_ok (DicomStudy.instance self n) = false <->
  ~ (0 <= n < DicomStudy.numInstances self)%Z.

(** [studyInstanceUID] is the SOP instance UID of the first instance. *)
Definition returns_first_sopInstanceUID (self : DicomStudy.t) : Prop :=
  DicomStudy.studyInstanceUID self =
  Ok (match DicomStudy.__instances self with
      | [] => ""
      | o :: _ => DicomInstance_sopInstanceUID (inst o)
      end).

(** An exception that a collaborator's constructor can raise. *)
Definition raised_by_constructor (e : exn) : Prop :=
  (exists url w w', DataDictionary_new url w = (Raise e, w')) \/
  (exists filename dd w w', DicomInstance_new filename dd w = (Raise e, w')).

(** [self.__instancesByUID[instance.sopInstanceUID()] = instance] *)
Definition index_step (idx : gmap string object) (o : object)
  : gmap string object :=
  <[DicomInstance_sopInstanceUID (inst o) := o]> idx.

(** The last object of [l] whose SOP instance UID is [uid]. *)
Definition last_with_uid (uid : string) (l : list object) : option object :=
  last (filter (fun o => DicomInstance_sopInstanceUID (inst o) = uid) l).

End Statements.

(** ** A concrete setting

    A small file system and simple collaborators on which the definitions
    can be run. A DICOM file is written [D/<sop uid>/<study uid>]; a fourth
    field [locked] makes the release of its temporary items fail. *)

Module Sample.

Definition fields (i : list string) (k : nat) : string := nth k i "".

#[local] Instance collaborators : Collaborators := {|
  DataDictionary := string;
  DataDictionary_new url w := (Ok url, w);
  DicomInstance := list string;
  isDicom fs filename :=
    match stat fs filename with
    | Some (File c) => String.eqb (fields (split_slash c) 0) "D"
    | _ => false
    end;
  DicomInstance_new filename _ w :=
    match stat (fs w) filename with
    | Some (File c) => (Ok (split_slash c), w)
    | _ => (Raise (IOError ("No such file or directory: " +:+ filename)), w)
    end;
  DicomInstance_sopInstanceUID i := fields i 1;
  DicomInstance_studyInstanceUID i := fields i 2;
  DicomInstance_tidy i w :=
    if String.eqb (fields i 3) "locked"
    then (Raise (CollaboratorError "locked"), w)
    else (Ok tt, w);
  DicomInstance_debug i sink w :=
    match sink with
    | None => print ("> Instance " +:+ fields i 1 +:+ nl) w
    | Some f => file_write f ("> Instance " +:+ fields i 1 +:+ nl) w
    end
|}.

Definition disk : node :=
  Dir [("studies",
        Dir [("A", Dir [("a.dcm", File "D/1.2.3/1.2");
                        ("notes.txt", File "hello");
                        ("sub", Dir [("b.dcm", File "D/1.2.3/1.2")]);
                        ("c.dcm", File "D/1.2.4/1.2")]);
             ("B", Dir [("x.dcm", File "D/9.1/9/locked");
                        ("y.dcm", File "D/9.2/9")]);
             ("empty", Dir [])]);
       ("out.txt", File "old")].

Definition machine : Machine :=
  {| world := {| fs := {| root := disk; cwd := [] |};
                 stdout := "";
                 ofiles := [];
                 written := ∅ |};
     calls := [];
     next_oid := 0 |}.

Definition obj (k : nat) (name : string) (i : list string) : object :=
  @Build_object collaborators k name i.

Definition blank : DicomStudy.t :=
  {| DicomStudy.__dcmDir := "";
     DicomStudy.__instances := [];
     DicomStudy.__instancesByUID := ∅;
     DicomStudy.__dataDictionary := "";
     DicomStudy.__output := None |}.

(** The state after [study = DicomStudy(dcmDir, "dict")]; the blank study
    stands in when the constructor raises. *)
Definition construct (dcmDir : string) : DicomStudy.t * Machine :=
  match DicomStudy.__init__ dcmDir "dict" machine with
  | (Ok self, m) => (self, m)
  | (Raise _, m) => (blank, m)
  end.

Definition studyA : DicomStudy.t * Machine := construct "/studies/A".
Definition studyB : DicomStudy.t * Machine := construct "/studies/B".

(** [studyA] after [study.setOutput("/new.txt")]. *)
Definition studyA_redirected : DicomStudy.t * Machine :=
  snd (DicomStudy.setOutput "/new.txt" studyA).

End Sample.

(** ** The command line

    [getopt.getopt(args, shortopts)] of the standard library, without long
    options: options are read up to the first argument that is not one, or
    up to [--]. *)

Module getopt.

Inductive GetoptError := Error (msg : string) (opt : string).

Definition startswith_char (c : ascii) (s : string) : bool :=
  match s with
  | String c' _ => Ascii.eqb c' c
  | EmptyString => false
  end.

(** [short_has_arg(opt, shortopts)]; [None] when the option letter is not
    in [shortopts]. *)
Fixpoint short_has_arg (opt : ascii) (shortopts : string) : option bool :=
  match shortopts with
  | EmptyString => None
  | String c rest =>
      if Ascii.eqb opt c && negb (Ascii.eqb c ":")
      then Some (startswith_char ":" rest)
      else short_has_arg opt rest
  end.

(** [do_shorts] on the letters of one argument. [next] is the argument that
    follows, if any; the flag returned tells whether it was taken as the
    value of an option. *)
Fixpoint do_shorts (shortopts : string) (optstring : string) (next : option string)
  : GetoptError + (list (string * string) * bool) :=
  match optstring with
  | EmptyString => inr ([], false)
  | String opt rest =>
      let name := String opt EmptyString in
      match short_has_arg opt shortopts with
      | None => inl (Error ("option -" +:+ name +:+ " not recognized") name)
      | Some true =>
          if String.eqb rest "" then
            match next with
            | None => inl (Error ("option -" +:+ name +:+ " requires argument") name)
            | Some a => inr ([("-" +:+ name, a)], true)
            end
          else inr ([("-" +:+ name, rest)], false)
      | Some false =>
          match do_shorts shortopts rest next with
          | inl e => inl e
          | inr (opts, taken) => inr (("-" +:+ name, "") :: opts, taken)
          end
      end
  end.

(** The part of a long option before its [=]. *)
Fixpoint before_equals (s : string) : string :=
  match s with
  | EmptyString => EmptyString
  | String c rest => if Ascii.eqb c "=" then EmptyString else String c (before_equals rest)
  end.

Definition tail_string (s : string) : string :=
  match s with
  | String _ rest => rest
  | EmptyString => EmptyString
  end.

Fixpoint getopt (args : list string) (shortopts : string) {struct args}
  : GetoptError + (list (string * string) * list string) :=
  match args with
  | [] => inr ([], [])
  | a :: rest =>
      if startswith_char "-" a && negb (String.eqb a "-") then
        if String.eqb a "--" then inr ([], rest)
        else if startswith_char "-" (tail_string a) then
          let opt := before_equals (tail_string (tail_string a)) in
          inl (Error ("option --" +:+ opt +:+ " not recognized") opt)
        else
          match do_shorts shortopts (tail_string a) (head rest) with
          | inl e => inl e
          | inr (opts, taken) =>
              match
                match rest with
                | r :: rest' => if taken then getopt rest' shortopts
                                else getopt rest shortopts
                | [] => getopt rest shortopts
                end
              with
              | inl e => inl e
              | inr (opts', args') => inr (opts ++ opts', args')
              end
          end
      else inr ([], args)
  end.

End getopt.

(** [main()]: [progName] is [sys.argv[0]], [args] is [sys.argv[1:]], and
    [DCM4CHE_URL] the constant of that name of [DataDictionary]. *)

(** How the process ends: [main] returns, [sys.exit] is called (the
    [SystemExit] it raises is not an [Exception], so the handler of [main]
    lets it pass), or the error of [getopt], raised outside the [try], is
    never caught. *)
Inductive termination :=
| Returned
| SystemExit (status : Z)
| Uncaught (e : getopt.GetoptError).

Definition exit_status (t : termination) : Z :=
  match t with
  | Returned => 0
  | SystemExit status => status
  | Uncaught _ => 1
  end.

(** The machine and the exceptions handed to [traceback.print_exception].
    (What a file object still holds when [main] is left is written by the
    interpreter when the process ends.) *)
Record Process := {
  machine : Machine;
  tracebacks : list exn
}.

(** [for opt in options: if opt[0] == flag: value = opt[1]] *)
Definition option_value (flag default : string) (options : list (string * string))
  : string :=
  fold_left (fun value opt => if String.eqb (fst opt) flag then snd opt else value)
            options default.

(** [for opt in options: if opt[0] == flag: found = True] *)
Definition option_given (flag : string) (options : list (string * string)) : bool :=
  fold_left (fun found opt => if String.eqb (fst opt) flag then true else found)
            options false.

(** Whether a character is white space other than the blank. *)
Definition is_space_not_blank (c : ascii) : bool :=
  (9 <=? nat_of_ascii c) && (nat_of_ascii c <=? 13).

Fixpoint ends_in_space_not_blank (s : string) : bool :=
  match s with
  | EmptyString => false
  | String c EmptyString => is_space_not_blank c
  | String _ s' => ends_in_space_not_blank s'
  end.

(** What the [print] statement writes between the item [s] and the next
    item: a blank, unless [s] ends in white space other than a blank. *)
Definition print_separator (s : string) : string :=
  if ends_in_space_not_blank s then "" else " ".

Definition usage (progName : string) : string :=
  "Usage" +:+ print_separator "Usage" +:+ progName +:+ print_separator progName
  +:+ "[options] <dicom_dir>" +:+ nl +:+
  "  -d <data_dictionary_url>: defaults to DCM4CHE" +:+ nl +:+
  "  -o <output>:              output filename (defaults to stdout)" +:+ nl +:+
  "  -h:                       displays usage" +:+ nl.

Section Main.

Context `{C : Collaborators}.

Variable DCM4CHE_URL : string.

(** The statements under [# Read dicom.], without [dcmDir = args[0]]. *)
Definition read_dicom (dcmDir dataDictionaryUrl output : string) : M Machine unit :=
  let* study := DicomStudy.__init__ dcmDir dataDictionaryUrl in
  fun m =>
    let '(r, (_, m')) :=
      (DicomStudy.setOutput output ;; DicomStudy.debug ;; DicomStudy.tidy)
        (study, m) in
    (r, m').

Definition main (progName : string) (args : list string) (m : Machine)
  : termination * Process :=
  match getopt.getopt args "d:o:h" with
  | inl e => (Uncaught e, {| machine := m; tracebacks := [] |})
  | inr (options, args) =>
      let dataDictionaryUrl := option_value "-d" DCM4CHE_URL options in
      let output := option_value "-o" "" options in
      let help := option_given "-h" options in
      if help || (Z.of_nat (length args) <? 1)%Z then
        (SystemExit 1,
         {| machine := snd (io (print (usage progName)) m); tracebacks := [] |})
      else
        match
          match args with
          | dcmDir :: _ => read_dicom dcmDir dataDictionaryUrl output m
          | [] => (Raise (IndexError "list index out of range"), m)
          end
        with
        | (Ok _, m') => (Returned, {| machine := m'; tracebacks := [] |})
        | (Raise e, m') => (SystemExit 1, {| machine := m'; tracebacks := [e] |})
        end
  end.

End Main.

(** ** Further statements about a study *)

Section MoreStatements.

Context `{C : Collaborators}.

(** A method [act] of the instances called on the objects of a list in
    order, from the world [w]: [called_in_order act l w done r w'] when the
    objects [done] are those called, [r] is the outcome and [w'] the world
    reached. A call that returns is followed by the call on the next
    object, in the world it left; a call that raises is the last one, and
    what it raised is the outcome. *)
Inductive called_in_order (act : DicomInstance -> World -> result unit * World)
  : list object -> World -> list object -> result unit -> World -> Prop :=
| called_none (w : World) :
    called_in_order act [] w [] (Ok tt) w
| called_next (o : object) (l : list object) (w w1 : World)
    (done : list object) (r : result unit) (w2 : World) :
    act (inst o) w = (Ok tt, w1) ->
    called_in_order act l w1 done r w2 ->
    called_in_order act (o :: l) w (o :: done) r w2
| called_raised (o : object) (l : list object) (w : World) (e : exn)
    (w1 : World) :
    act (inst o) w = (Raise e, w1) ->
    called_in_order act (o :: l) w [o] (Raise e) w1.

(** The calls of [debug] on the objects of [l], each with the sink [sink]. *)
Definition debug_calls (l : list object) (sink : option nat) : list call :=
  map (fun o => CallDebug (oid o) sink) l.

(** Two studies with the same directory, sequence, index and dictionary. *)
Definition same_contents (self self' : DicomStudy.t) : Prop :=
  DicomStudy.__dcmDir self' = DicomStudy.__dcmDir self /\
  DicomStudy.__instances self' = DicomStudy.__instances self /\
  DicomStudy.__instancesByUID self' = DicomStudy.__instancesByUID self /\
  DicomStudy.__dataDictionary self' = DicomStudy.__dataDictionary self.

(** Whether the names [q] lead from [r] to a directory. *)
Definition is_dir_at (r : node) (q : list string) : bool :=
  match lookup_path r q with
  | Some (Dir _) => true
  | _ => false
  end.

(** The file object [f] exists and is closed. *)
Definition sink_closed (f : nat) (w : World) : Prop :=
  exists o, ofiles w !! f = Some o /\ of_closed o = true.

End MoreStatements.

(** * Proofs *)

(** ** The accessors *)

Section Accessors.

Context `{C : Collaborators}.

Lemma instance_nonneg (self : DicomStudy.t) (n : Z) :
  (0 <= n < DicomStudy.numInstances self)%Z ->
  exists o, DicomStudy.__instances self !! Z.to_nat n = Some o /\
            DicomStudy.instance self n = Ok o.
Proof.
  intros [Hlo Hhi]. unfold DicomStudy.numInstances in Hhi.
  destruct (lookup_lt_is_Some_2 (DicomStudy.__instances self) (Z.to_nat n))
    as [o Ho]; [lia |].
  exists o. split; [exact Ho |].
  unfold DicomStudy.instance.
  destruct (Z.ltb_spec n 0) as [Hneg | _]; [lia |].
  destruct (Z.ltb_spec n 0) as [Hneg | _]; [lia |].
  destruct (Z.leb_spec (Z.of_nat (length (DicomStudy.__instances self))) n)
    as [Hge | _]; [lia |].
  simpl. rewrite Ho. reflexivity.
Qed.

Lemma instance_negative (self : DicomStudy.t) (n : Z) :
  (- DicomStudy.numInstances self <= n < 0)%Z ->
  exists o,
    DicomStudy.__instances self
      !! Z.to_nat (n + DicomStudy.numInstances self) = Some o /\
    DicomStudy.instance self n = Ok o.
Proof.
  intros [Hlo Hhi]. unfold DicomStudy.numInstances in *.
  set (len := Z.of_nat (length (DicomStudy.__instances self))) in *.
  destruct (lookup_lt_is_Some_2 (DicomStudy.__instances self) (Z.to_nat (n + len)))
    as [o Ho]; [lia |].
  exists o. split; [exact Ho |].
  unfold DicomStudy.instance. fold len.
  destruct (Z.ltb_spec n 0) as [_ | Hpos]; [| lia].
  destruct (Z.ltb_spec (n + len) 0) as [Hneg | _]; [lia |].
  destruct (Z.leb_spec len (n + len)) as [Hge | _]; [lia |].
  simpl. rewrite Ho. reflexivity.
Qed.

Lemma instance_outside (self : DicomStudy.t) (n : Z) :
  ~ (- DicomStudy.numInstances self <= n < DicomStudy.numInstances self)%Z ->
  DicomStudy.instance self n = Raise (IndexError "list index out of range").
Proof.
  intros Hout. unfold DicomStudy.numInstances in Hout.
  unfold DicomStudy.instance.
  set (len := Z.of_nat (length (DicomStudy.__instances self))) in *.
  destruct (Z.ltb_spec n 0) as [Hneg | Hpos].
  - destruct (Z.ltb_spec (n + len) 0) as [_ | Hge]; [reflexivity | lia].
  - destruct (Z.ltb_spec n 0) as [Hneg | _]; [lia |].
    destruct (Z.leb_spec len n) as [_ | Hlt]; [reflexivity | lia].
Qed.

(** C5 (as the code has it): [instance(n)] raises [IndexError] exactly when
    [n] is outside [[-numInstances, numInstances)]; for [n] in
    [[0, numInstances)] it returns the instance at position [n], and for [n]
    in [[-numInstances, 0)] the instance at position [numInstances + n]. *)
Theorem instance_index_range (self : DicomStudy.t) (n : Z) :
  let len := DicomStudy.numInstances self in
  ((exists msg, DicomStudy.instance self n = Raise (IndexError msg)) <->
   ~ (- len <= n < len)%Z) /\
  (is_ok (DicomStudy.instance self n) = false <-> ~ (- len <= n < len)%Z) /\
  (forall o, DicomStudy.instance self n = Ok o <->
     ((0 <= n < len)%Z /\
      DicomStudy.__instances self !! Z.to_nat n = Some o) \/
     ((- len <= n < 0)%Z /\
      DicomStudy.__instances self !! Z.to_nat (n + len) = Some o)).
Proof.
  intros len. subst len.
  set (len := DicomStudy.numInstances self).
  assert (Hcases : (0 <= n < len)%Z \/ (- len <= n < 0)%Z \/
                   ~ (- len <= n < len)%Z) by lia.
  destruct Hcases as [Hin | [Hneg | Hout]].
  - destruct (instance_nonneg self n Hin) as (o & Ho & Hr).
    rewrite Hr. repeat split.
    + intros [msg Hmsg]. discriminate.
    + intros; lia.
    + discriminate.
    + intros; lia.
    + intros Heq. injection Heq as <-. left. auto.
    + intros [[_ Hl] | [Hl _]]; [congruence | lia].
  - destruct (instance_negative self n Hneg) as (o & Ho & Hr).
    rewrite Hr. repeat split.
    + intros [msg Hmsg]. discriminate.
    + intros; lia.
    + discriminate.
    + intros; lia.
    + intros Heq. injection Heq as <-. right. auto.
    + intros [[Hl _] | [_ Hl]]; [lia | fold len in Ho; congruence].
  - rewrite (instance_outside self n Hout). repeat split; eauto.
    + discriminate.
    + intros [[Hl _] | [Hl _]]; lia.
Qed.

(** C2 (as the code has it): [studyInstanceUID()] returns the study instance
    UID reported by the first instance of the sequence, and the empty
    string when the sequence is empty. *)
Theorem studyInstanceUID_first (self : DicomStudy.t) :
  DicomStudy.studyInstanceUID self =
  Ok (match DicomStudy.__instances self with
      | [] => ""
      | o :: _ => DicomInstance_studyInstanceUID (inst o)
      end).
Proof.
  unfold DicomStudy.studyInstanceUID, DicomStudy.instance, DicomStudy.numInstances.
  destruct (DicomStudy.__instances self) as [| o l]; reflexivity.
Qed.

End Accessors.

(** ** Output redirection *)

Section SetOutput.

Context `{C : Collaborators}.

Lemma access_empty_path (fs : FS) : os.access fs "" = false.
Proof. reflexivity. Qed.

Lemma setOutput_empty (s : DicomStudy.t * Machine) :
  DicomStudy.setOutput "" s = (Ok tt, s).
Proof. reflexivity. Qed.

(** With a sink attached and a path that is not empty, [setOutput] stops at
    [self.__output(close)]. *)
Lemma setOutput_attached (self : DicomStudy.t) (m : Machine) (f : nat)
    (output : string) :
  DicomStudy.__output self = Some f ->
  output <> "" ->
  DicomStudy.setOutput output (self, m) =
  (Raise (NameError "global name 'close' is not defined"), (self, m)).
Proof.
  intros Hsink Hne. unfold DicomStudy.setOutput.
  destruct (String.eqb_spec output "") as [-> | _]; [congruence |].
  unfold bind, DicomStudy.get_self. simpl. rewrite Hsink. reflexivity.
Qed.

(** C6: with no sink attached, [setOutput] on a path that exists raises
    [IOError("File already exists - " + path)] and leaves the study, its
    unset output included, and the whole machine, the file's contents
    included, as they were. *)
Theorem setOutput_existing_path (self : DicomStudy.t) (m : Machine)
    (output : string) :
  DicomStudy.__output self = None ->
  os.access (fs (world m)) output = true ->
  DicomStudy.setOutput output (self, m) =
  (Raise (IOError ("File already exists - " +:+ output)), (self, m)).
Proof.
  intros Hnone Hexists. unfold DicomStudy.setOutput.
  destruct (String.eqb_spec output "") as [-> | _].
  - rewrite access_empty_path in Hexists. discriminate.
  - unfold bind, DicomStudy.get_self, DicomStudy.on_machine, get_world.
    simpl. rewrite Hnone. simpl. rewrite Hexists. reflexivity.
Qed.

(** C9: with a sink attached, [setOutput("")] returns at once: the study
    keeps its sink and the machine (files, file objects, output) is
    untouched. *)
Theorem setOutput_empty_keeps_sink (self : DicomStudy.t) (m : Machine) (f : nat) :
  DicomStudy.__output self = Some f ->
  DicomStudy.setOutput "" (self, m) = (Ok tt, (self, m)) /\
  DicomStudy.__output (fst (snd (DicomStudy.setOutput "" (self, m)))) = Some f /\
  ofiles (world (snd (snd (DicomStudy.setOutput "" (self, m))))) !! f =
  ofiles (world m) !! f.
Proof.
  intros Hsink. rewrite setOutput_empty. simpl. auto.
Qed.

End SetOutput.

(** ** Construction *)

Section Construction.

Context `{C : Collaborators}.

Lemma read_one_eval (name : string) (self : DicomStudy.t) (m : Machine) :
  DicomStudy.read_one name (self, m) =
  match DicomInstance_new name (DicomStudy.__dataDictionary self) (world m) with
  | (Ok i, w') =>
      let o := {| oid := next_oid m; dcmName := name; inst := i |} in
      (Ok tt,
       ({| DicomStudy.__dcmDir := DicomStudy.__dcmDir self;
           DicomStudy.__instances := DicomStudy.__instances self ++ [o];
           DicomStudy.__instancesByUID :=
             index_step (DicomStudy.__instancesByUID self) o;
           DicomStudy.__dataDictionary := DicomStudy.__dataDictionary self;
           DicomStudy.__output := DicomStudy.__output self |},
        {| world := w'; calls := calls m; next_oid := S (next_oid m) |}))
  | (Raise e, w') =>
      (Raise e,
       (self, {| world := w'; calls := calls m; next_oid := next_oid m |}))
  end.
Proof.
  unfold DicomStudy.read_one, bind, DicomStudy.get_self, DicomStudy.on_machine,
    DicomStudy.new_instance, DicomStudy.put_self.
  simpl.
  destruct (DicomInstance_new name (DicomStudy.__dataDictionary self) (world m))
    as [[i | e] w']; reflexivity.
Qed.

(** The second loop of [__read]: one new object per name, in order, each
    appended to the sequence and written into the index. *)
Lemma read_loop (names : list string) (self : DicomStudy.t) (m : Machine) :
  let '(r, (self', m')) := for_each names DicomStudy.read_one (self, m) in
  match r with
  | Ok _ =>
      exists new,
        DicomStudy.__instances self' = DicomStudy.__instances self ++ new /\
        map dcmName new = names /\
        map oid new = seq (next_oid m) (length names) /\
        DicomStudy.__instancesByUID self' =
          fold_left index_step new (DicomStudy.__instancesByUID self) /\
        DicomStudy.__dcmDir self' = DicomStudy.__dcmDir self /\
        DicomStudy.__output self' = DicomStudy.__output self /\
        DicomStudy.__dataDictionary self' = DicomStudy.__dataDictionary self /\
        calls m' = calls m
  | Raise e => raised_by_constructor e
  end.
Proof.
  revert self m. induction names as [| name names IH]; intros self m.
  - simpl. exists []. rewrite app_nil_r. repeat split; reflexivity.
  - simpl. unfold bind at 1. rewrite read_one_eval.
    destruct (DicomInstance_new name (DicomStudy.__dataDictionary self) (world m))
      as [[i | e] w'] eqn:Hnew; simpl.
    + match goal with
      | |- context [for_each names DicomStudy.read_one (?s, ?m1)] =>
          specialize (IH s m1);
          destruct (for_each names DicomStudy.read_one (s, m1))
            as [r [self' m']]
      end.
      destruct r as [[] | e]; [| exact IH].
      simpl in IH.
      destruct IH as (new & Hi & Hn & Ho & Hx & Hd & Hout & Hdd & Hc).
      exists ({| oid := next_oid m; dcmName := name; inst := i |} :: new).
      rewrite Hi, <- app_assoc. simpl.
      rewrite Hn, Ho, Hx.
      repeat split; assumption.
    + right. eauto.
Qed.

(** What [__init__] does once the directory check has passed. *)
Lemma init_on_directory (dcmDir url : string) (m : Machine) :
  os.path.isdir (fs (world m)) dcmDir = true ->
  match DataDictionary_new url (world m) with
  | (Raise e, w1) =>
      DicomStudy.__init__ dcmDir url m =
      (Raise e, {| world := w1; calls := calls m; next_oid := next_oid m |})
  | (Ok dd, w1) =>
      match DicomStudy.__init__ dcmDir url m with
      | (Ok self, m') =>
          DicomStudy.__dcmDir self = dcmDir /\
          DicomStudy.__output self = None /\
          DicomStudy.__dataDictionary self = dd /\
          map dcmName (DicomStudy.__instances self) =
            DicomStudy.dcmNames (fs w1) dcmDir /\
          map oid (DicomStudy.__instances self) =
            seq (next_oid m) (length (DicomStudy.dcmNames (fs w1) dcmDir)) /\
          DicomStudy.__instancesByUID self =
            fold_left index_step (DicomStudy.__instances self) ∅
      | (Raise e, _) => raised_by_constructor e
      end
  end.
Proof.
  intros Hdir. unfold DicomStudy.__init__, bind, get_world, io.
  simpl. rewrite Hdir. simpl.
  destruct (DataDictionary_new url (world m)) as [[dd | e] w1]; [| reflexivity].
  unfold DicomStudy.__read, bind, DicomStudy.get_self, DicomStudy.on_machine,
    get_world.
  simpl.
  match goal with
  | |- context [for_each ?names DicomStudy.read_one (?s, ?m1)] =>
      pose proof (read_loop names s m1) as Hloop;
      destruct (for_each names DicomStudy.read_one (s, m1)) as [r [self' m']]
  end.
  destruct r as [[] | e]; [| exact Hloop].
  simpl in Hloop.
  destruct Hloop as (new & Hi & Hn & Ho & Hx & Hd & Hout & Hdd & Hc).
  rewrite Hi. simpl. repeat split; assumption.
Qed.

Lemma init_not_directory (dcmDir url : string) (m : Machine) :
  os.path.isdir (fs (world m)) dcmDir = false ->
  DicomStudy.__init__ dcmDir url m =
  (Raise (IOError ("Directory does not exist - " +:+ dcmDir)), m).
Proof.
  intros Hdir. unfold DicomStudy.__init__, bind, get_world. simpl.
  rewrite Hdir. reflexivity.
Qed.

(** C7: over a path that is not an existing directory the constructor
    raises [IOError("Directory does not exist - " + dcmDir)], returns no
    study and leaves the machine as it was; over an existing directory it
    goes on: it returns a study on that directory with no output attached,
    unless the constructor of a collaborator raises. *)
Theorem init_requires_directory (dcmDir url : string) (m : Machine) :
  (os.path.isdir (fs (world m)) dcmDir = false ->
   DicomStudy.__init__ dcmDir url m =
   (Raise (IOError ("Directory does not exist - " +:+ dcmDir)), m)) /\
  (os.path.isdir (fs (world m)) dcmDir = true ->
   match DicomStudy.__init__ dcmDir url m with
   | (Ok self, _) =>
       DicomStudy.__dcmDir self = dcmDir /\ DicomStudy.__output self = None
   | (Raise e, _) => raised_by_constructor e
   end).
Proof.
  split; intros Hdir.
  - apply init_not_directory. exact Hdir.
  - pose proof (init_on_directory dcmDir url m Hdir) as Hinit.
    destruct (DataDictionary_new url (world m)) as [[dd | e] w1] eqn:Hdd.
    + destruct (DicomStudy.__init__ dcmDir url m) as [[self | e] m'].
      * destruct Hinit as (Hd & Hout & _). auto.
      * exact Hinit.
    + rewrite Hinit. left. eauto.
Qed.

(** A successful construction passed the directory check and obtained its
    data dictionary. *)
Lemma init_ok_inv (dcmDir url : string) (m : Machine) (self : DicomStudy.t)
    (m' : Machine) :
  DicomStudy.__init__ dcmDir url m = (Ok self, m') ->
  exists dd w1,
    DataDictionary_new url (world m) = (Ok dd, w1) /\
    DicomStudy.__dcmDir self = dcmDir /\
    DicomStudy.__output self = None /\
    map dcmName (DicomStudy.__instances self) =
      DicomStudy.dcmNames (fs w1) dcmDir /\
    map oid (DicomStudy.__instances self) =
      seq (next_oid m) (length (DicomStudy.dcmNames (fs w1) dcmDir)) /\
    DicomStudy.__instancesByUID self =
      fold_left index_step (DicomStudy.__instances self) ∅.
Proof.
  intros Hinit.
  destruct (os.path.isdir (fs (world m)) dcmDir) eqn:Hdir.
  - pose proof (init_on_directory dcmDir url m Hdir) as Hspec.
    destruct (DataDictionary_new url (world m)) as [[dd | e] w1].
    + rewrite Hinit in Hspec. exists dd, w1.
      destruct Hspec as (? & ? & ? & ? & ? & ?). repeat split; assumption.
    + rewrite Hinit in Hspec. discriminate.
  - rewrite (init_not_directory dcmDir url m Hdir) in Hinit.
    discriminate.
Qed.

(** The index after a run of insertions holds, for every identifier, the
    last object inserted under it. *)
Lemma index_lookup (new : list object) (idx : gmap string object) (uid : string) :
  fold_left index_step new idx !! uid =
  match last_with_uid uid new with
  | Some o => Some o
  | None => idx !! uid
  end.
Proof.
  induction new as [| o new IH] using rev_ind; [reflexivity |].
  rewrite fold_left_app. simpl. unfold last_with_uid in *.
  rewrite filter_app, last_app. unfold index_step at 1.
  destruct (decide (DicomInstance_sopInstanceUID (inst o) = uid)) as [Heq | Hne].
  - rewrite filter_cons_True by exact Heq. simpl.
    rewrite Heq. apply lookup_insert_eq.
  - rewrite filter_cons_False by exact Hne. simpl.
    rewrite lookup_insert_ne by exact Hne. exact IH.
Qed.

(** The last element that satisfies [P] sits at or after any element that
    satisfies [P]. *)
Lemma last_filter_from {A} (P : A -> Prop) `{!forall x, Decision (P x)}
    (l : list A) (j : nat) (y : A) :
  l !! j = Some y -> P y ->
  exists k x, j <= k /\ l !! k = Some x /\ P x /\ last (filter P l) = Some x.
Proof.
  revert j y. induction l as [| z l IH] using rev_ind; intros j y Hj Hy.
  - rewrite lookup_nil in Hj. discriminate.
  - rewrite filter_app, last_app.
    destruct (decide (P z)) as [Hz | Hz].
    + rewrite filter_cons_True by exact Hz. simpl.
      exists (length l), z. repeat split; auto.
      * apply lookup_lt_Some in Hj. rewrite length_app in Hj. simpl in Hj. lia.
      * rewrite lookup_app_r by lia. rewrite Nat.sub_diag. reflexivity.
    + rewrite filter_cons_False by exact Hz. simpl.
      assert (Hlt : j < length l).
      { destruct (decide (j < length l)) as [Hlt | Hge]; [exact Hlt |].
        rewrite lookup_app_r in Hj by lia.
        destruct (j - length l) as [| d] eqn:Hd; simpl in Hj.
        - injection Hj as <-. contradiction.
        - rewrite lookup_nil in Hj. discriminate. }
      rewrite lookup_app_l in Hj by exact Hlt.
      destruct (IH j y Hj Hy) as (k & x & Hjk & Hk & Hx & Hlast).
      exists k, x. repeat split; auto.
      rewrite lookup_app_l; [exact Hk |].
      apply lookup_lt_Some in Hk. exact Hk.
Qed.

(** Of two instances with the same identifier, the index never keeps the
    earlier one; it keeps the later one when no instance after it has that
    identifier. *)
Lemma index_of_collision (self : DicomStudy.t) (i j : nat) (oi oj : object) :
  NoDup (map oid (DicomStudy.__instances self)) ->
  DicomStudy.__instancesByUID self =
    fold_left index_step (DicomStudy.__instances self) ∅ ->
  i < j ->
  DicomStudy.__instances self !! i = Some oi ->
  DicomStudy.__instances self !! j = Some oj ->
  DicomInstance_sopInstanceUID (inst oi) = DicomInstance_sopInstanceUID (inst oj) ->
  oid oi <> oid oj /\
  DicomStudy.__instancesByUID self !! DicomInstance_sopInstanceUID (inst oi)
    <> Some oi /\
  ((forall k ok, j < k -> DicomStudy.__instances self !! k = Some ok ->
      DicomInstance_sopInstanceUID (inst ok)
        <> DicomInstance_sopInstanceUID (inst oj)) ->
   DicomStudy.__instancesByUID self !! DicomInstance_sopInstanceUID (inst oj)
     = Some oj).
Proof.
  intros Hnodup Hidx Hij Hi Hj Huid.
  set (uid := DicomInstance_sopInstanceUID (inst oj)) in *.
  assert (Hoid : forall a b oa ob,
             DicomStudy.__instances self !! a = Some oa ->
             DicomStudy.__instances self !! b = Some ob ->
             oid oa = oid ob -> a = b).
  { intros a b oa ob Ha Hb Heq.
    apply (NoDup_lookup _ a b (oid oa) Hnodup).
    - change (map oid (DicomStudy.__instances self))
        with (oid <$> DicomStudy.__instances self).
      rewrite list_lookup_fmap, Ha. reflexivity.
    - change (map oid (DicomStudy.__instances self))
        with (oid <$> DicomStudy.__instances self).
      rewrite list_lookup_fmap, Hb. simpl. congruence. }
  destruct (last_filter_from
              (fun o => DicomInstance_sopInstanceUID (inst o) = uid)
              (DicomStudy.__instances self) j oj Hj eq_refl)
    as (k & x & Hjk & Hk & Hx & Hlast).
  assert (Hlookup : DicomStudy.__instancesByUID self !! uid = Some x).
  { rewrite Hidx, index_lookup. unfold last_with_uid. rewrite Hlast.
    reflexivity. }
  split; [| split].
  - intros Heq. specialize (Hoid i j oi oj Hi Hj Heq). lia.
  - rewrite Huid, Hlookup. intros Heq. injection Heq as ->.
    specialize (Hoid i k oi oi Hi Hk eq_refl). lia.
  - intros Hlater. rewrite Hlookup. f_equal.
    destruct (decide (j = k)) as [-> | Hne]; [congruence |].
    exfalso. apply (Hlater k x); [lia | exact Hk | exact Hx].
Qed.

(** C4: after a construction, the sequence holds one instance per collected
    file, in the order of collection, so [numInstances] counts them all;
    when two of them report the same SOP instance UID, both are in the
    sequence as distinct objects and the index holds, under that one key,
    the later one (the last to report it). *)
Theorem index_keeps_later (dcmDir url : string) (m : Machine)
    (self : DicomStudy.t) (m' : Machine) :
  DicomStudy.__init__ dcmDir url m = (Ok self, m') ->
  exists dd w1,
    DataDictionary_new url (world m) = (Ok dd, w1) /\
    map dcmName (DicomStudy.__instances self) =
      DicomStudy.dcmNames (fs w1) dcmDir /\
    DicomStudy.numInstances self =
      Z.of_nat (length (DicomStudy.dcmNames (fs w1) dcmDir)) /\
    forall i j oi oj,
      i < j ->
      DicomStudy.__instances self !! i = Some oi ->
      DicomStudy.__instances self !! j = Some oj ->
      DicomInstance_sopInstanceUID (inst oi)
        = DicomInstance_sopInstanceUID (inst oj) ->
      (forall k ok, j < k -> DicomStudy.__instances self !! k = Some ok ->
         DicomInstance_sopInstanceUID (inst ok)
           <> DicomInstance_sopInstanceUID (inst oj)) ->
      oid oi <> oid oj /\
      DicomStudy.__instancesByUID self
        !! DicomInstance_sopInstanceUID (inst oi) = Some oj /\
      DicomStudy.instanceByUID self (DicomInstance_sopInstanceUID (inst oi))
        = Ok oj.
Proof.
  intros Hinit.
  destruct (init_ok_inv dcmDir url m self m' Hinit)
    as (dd & w1 & Hdd & _ & _ & Hnames & Hoids & Hidx).
  exists dd, w1. split; [exact Hdd |]. split; [exact Hnames |]. split.
  - unfold DicomStudy.numInstances. rewrite <- Hnames, length_map. reflexivity.
  - intros i j oi oj Hij Hi Hj Huid Hlater.
    assert (Hnodup : NoDup (map oid (DicomStudy.__instances self)))
      by (rewrite Hoids; apply NoDup_seq).
    destruct (index_of_collision self i j oi oj Hnodup Hidx Hij Hi Hj Huid)
      as (Hne & _ & Hkeep).
    specialize (Hkeep Hlater).
    split; [exact Hne |]. rewrite Huid. split; [exact Hkeep |].
    unfold DicomStudy.instanceByUID. rewrite Hkeep. reflexivity.
Qed.

End Construction.

(** ** The bottom-up walk *)

Section Walk.

Variable accept : string -> bool.

Lemma node_induction (P : node -> Prop) :
  (forall c, P (File c)) ->
  (forall es, Forall (fun e => P (snd e)) es -> P (Dir es)) ->
  forall n, P n.
Proof.
  intros Hfile Hdir. fix IH 1. intros [c | es]; [apply Hfile |].
  apply Hdir. induction es as [| [name c] es IHes]; constructor.
  - apply IH.
  - exact IHes.
Qed.

(** Dropping the addresses of [located] gives the names collected from the
    triples of the walk. *)
Lemma located_names (n : node) : forall top addr,
  map snd (located accept top addr n) =
  flat_map
    (fun '(root, dirs, files) =>
       filter (fun filename => accept filename = true)
              (map (os.path.join root) files))
    (os.walk_node top n).
Proof.
  induction n as [c | es IH] using node_induction; intros top addr;
    [reflexivity |].
  simpl. rewrite map_app, flat_map_app. simpl. rewrite app_nil_r. f_equal.
  - generalize 0 as k. induction IH as [| [name c] es Hc _ IHes]; intros k;
      [reflexivity |].
    simpl. rewrite map_app, flat_map_app. f_equal; [| apply IHes].
    destruct c; [reflexivity | apply Hc].
  - rewrite map_map. simpl. apply map_id.
Qed.

(** Every name found under a directory carries an address that extends the
    address of that directory. *)
Lemma located_prefix (n : node) : forall top addr e,
  e ∈ located accept top addr n -> exists rest, fst e = addr ++ rest.
Proof.
  induction n as [c | es IH] using node_induction; intros top addr e He.
  - simpl in He. apply elem_of_nil in He. contradiction.
  - simpl in He. apply elem_of_app in He. destruct He as [He | He].
    + revert He. generalize 0 as k.
      induction IH as [| [name c] es Hc _ IHes]; intros k He.
      * simpl in He. apply elem_of_nil in He. contradiction.
      * simpl in He. apply elem_of_app in He. destruct He as [He | He].
        -- destruct c; [apply elem_of_nil in He; contradiction |].
           destruct (Hc _ _ _ He) as [rest Hrest].
           exists (k :: rest). rewrite Hrest, <- app_assoc. reflexivity.
        -- apply (IHes (S k)). exact He.
    + change (e ∈ pair addr <$>
                filter (fun filename => accept filename = true)
                  (map (os.path.join top) (nondirs_of es))) in He.
      apply list_elem_of_fmap in He. destruct He as (f & -> & _).
      exists []. rewrite app_nil_r. reflexivity.
Qed.

(** The names found under the sub-directories listed from position [k] on
    carry the address of the directory, then a position from [k] on. *)
Lemma concat_subdirs_address (top : string) (addr : list nat)
    (es : list (string * node)) : forall k e,
  e ∈ concat_subdirs
        (fun k name c => located accept (os.path.join top name) (addr ++ [k]) c)
        k es ->
  exists k' rest, k <= k' /\ fst e = addr ++ k' :: rest.
Proof.
  induction es as [| [name c] es IHes]; intros k e He.
  - simpl in He. apply elem_of_nil in He. contradiction.
  - simpl in He. apply elem_of_app in He. destruct He as [He | He].
    + destruct c; [apply elem_of_nil in He; contradiction |].
      destruct (located_prefix _ _ _ _ He) as [rest Hrest].
      exists k, rest. split; [lia |].
      rewrite Hrest, <- app_assoc. reflexivity.
    + destruct (IHes (S k) e He) as (k' & rest & Hk & Hrest).
      exists k', rest. split; [lia | exact Hrest].
Qed.

Lemma subdirectories_first_app (L1 L2 : list (list nat * string)) :
  subdirectories_first L1 ->
  subdirectories_first L2 ->
  (forall e1 e2, e1 ∈ L1 -> e2 ∈ L2 -> ~ below (fst e2) (fst e1)) ->
  subdirectories_first (L1 ++ L2).
Proof.
  intros H1 H2 Hcross i j a b f g Hi Hj Hbelow.
  apply lookup_app_Some in Hi. apply lookup_app_Some in Hj.
  destruct Hi as [Hi | [Hli Hi]], Hj as [Hj | [Hlj Hj]].
  - exact (H1 i j a b f g Hi Hj Hbelow).
  - apply lookup_lt_Some in Hi. lia.
  - exfalso. apply (Hcross (b, g) (a, f)).
    + apply list_elem_of_lookup. eauto.
    + apply list_elem_of_lookup. eauto.
    + exact Hbelow.
  - pose proof (H2 _ _ a b f g Hi Hj Hbelow). lia.
Qed.

Lemma below_irrefl_ext (addr rest : list nat) (k : nat) (more : list nat) :
  ~ below addr ((addr ++ rest) ++ k :: more) /\ ~ below addr addr.
Proof.
  split; intros (k2 & r2 & Heq); apply (f_equal length) in Heq;
    repeat (rewrite length_app in Heq; simpl in Heq); lia.
Qed.

(** The walk is bottom-up: a name listed by a directory comes after every
    name listed by a directory below it. *)
Lemma located_subdirectories_first (n : node) : forall top addr,
  subdirectories_first (located accept top addr n).
Proof.
  induction n as [c | es IH] using node_induction; intros top addr.
  - intros i j a b f g Hi. simpl in Hi. rewrite lookup_nil in Hi. discriminate.
  - simpl. apply subdirectories_first_app.
    + generalize 0 as k.
      induction IH as [| [name c] es Hc _ IHes]; intros k.
      * intros i j a b f g Hi. simpl in Hi. rewrite lookup_nil in Hi.
        discriminate.
      * simpl. apply subdirectories_first_app.
        -- destruct c; [| apply Hc].
           intros i j a b f g Hi. rewrite lookup_nil in Hi. discriminate.
        -- apply IHes.
        -- intros e1 e2 He1 He2 (k2 & r2 & Heq).
           destruct c; [apply elem_of_nil in He1; contradiction |].
           destruct (located_prefix _ _ _ _ He1) as [rest1 Hrest1].
           destruct (concat_subdirs_address _ _ _ _ _ He2)
             as (k' & rest2 & Hk' & Hrest2).
           rewrite Hrest1, Hrest2 in Heq.
           repeat rewrite <- app_assoc in Heq.
           apply app_inv_head in Heq. simpl in Heq.
           injection Heq as Hk _. lia.
    + intros i j a b f g Hi Hj Hbelow.
      change (map (pair addr) ?l) with (pair addr <$> l) in Hi, Hj.
      rewrite list_lookup_fmap in Hi, Hj.
      destruct (_ !! i) in Hi; [| discriminate].
      destruct (_ !! j) in Hj; [| discriminate].
      simpl in Hi, Hj. injection Hi as Ha _. injection Hj as Hb _.
      subst a b.
      exfalso. exact (proj2 (below_irrefl_ext addr [] 0 []) Hbelow).
    + intros e1 e2 He1 He2 Hbelow.
      destruct (concat_subdirs_address _ _ _ _ _ He1)
        as (k' & rest & _ & Hrest).
      change (e2 ∈ pair addr <$>
                filter (fun filename => accept filename = true)
                  (map (os.path.join top) (nondirs_of es))) in He2.
      apply list_elem_of_fmap in He2. destruct He2 as (f & -> & _).
      simpl in Hbelow. rewrite Hrest in Hbelow.
      exact (proj1 (below_irrefl_ext addr [] k' rest)
               ltac:(rewrite app_nil_r; exact Hbelow)).
Qed.

End Walk.

Section BottomUp.

Context `{C : Collaborators}.

Lemma dcmLocated_names (fs : FS) (dcmDir : string) :
  map snd (dcmLocated fs dcmDir) = DicomStudy.dcmNames fs dcmDir.
Proof.
  unfold dcmLocated, DicomStudy.dcmNames, os.walk.
  destruct (stat fs dcmDir); [apply located_names | reflexivity].
Qed.

Lemma dcmLocated_subdirectories_first (fs : FS) (dcmDir : string) :
  subdirectories_first (dcmLocated fs dcmDir).
Proof.
  unfold dcmLocated. destruct (stat fs dcmDir).
  - apply located_subdirectories_first.
  - intros i j a b f g Hi. rewrite lookup_nil in Hi. discriminate.
Qed.

(** C10: the construction collects the files bottom-up. The instances follow
    the collected names, and a name listed by a directory comes after every
    name listed by a directory below it; so when an instance from a
    directory and an instance from a directory below it report the same SOP
    instance UID, the index does not keep the lower one, and it keeps the
    upper one when no later instance reports that identifier. *)
Theorem walk_bottom_up (dcmDir url : string) (m : Machine)
    (self : DicomStudy.t) (m' : Machine) :
  DicomStudy.__init__ dcmDir url m = (Ok self, m') ->
  exists dd w1,
    DataDictionary_new url (world m) = (Ok dd, w1) /\
    map snd (dcmLocated (fs w1) dcmDir) =
      map dcmName (DicomStudy.__instances self) /\
    forall i j a b f g,
      dcmLocated (fs w1) dcmDir !! i = Some (a, f) ->
      dcmLocated (fs w1) dcmDir !! j = Some (b, g) ->
      below a b ->
      i < j /\
      forall oi oj,
        DicomStudy.__instances self !! i = Some oi ->
        DicomStudy.__instances self !! j = Some oj ->
        DicomInstance_sopInstanceUID (inst oi)
          = DicomInstance_sopInstanceUID (inst oj) ->
        dcmName oi = f /\ dcmName oj = g /\
        DicomStudy.__instancesByUID self
          !! DicomInstance_sopInstanceUID (inst oi) <> Some oi /\
        ((forall k ok, j < k -> DicomStudy.__instances self !! k = Some ok ->
            DicomInstance_sopInstanceUID (inst ok)
              <> DicomInstance_sopInstanceUID (inst oj)) ->
         DicomStudy.__instancesByUID self
           !! DicomInstance_sopInstanceUID (inst oj) = Some oj).
Proof.
  intros Hinit.
  destruct (init_ok_inv dcmDir url m self m' Hinit)
    as (dd & w1 & Hdd & _ & _ & Hnames & Hoids & Hidx).
  exists dd, w1. split; [exact Hdd |].
  assert (Hloc : map snd (dcmLocated (fs w1) dcmDir) =
                 map dcmName (DicomStudy.__instances self))
    by (rewrite dcmLocated_names; symmetry; exact Hnames).
  split; [exact Hloc |].
  intros i j a b f g Hi Hj Hbelow.
  pose proof (dcmLocated_subdirectories_first (fs w1) dcmDir i j a b f g
                Hi Hj Hbelow) as Hij.
  split; [exact Hij |].
  intros oi oj Hoi Hoj Huid.
  assert (Hnodup : NoDup (map oid (DicomStudy.__instances self)))
    by (rewrite Hoids; apply NoDup_seq).
  destruct (index_of_collision self i j oi oj Hnodup Hidx Hij Hoi Hoj Huid)
    as (_ & Hnot & Hkeep).
  assert (Hname : forall k e o,
             dcmLocated (fs w1) dcmDir !! k = Some e ->
             DicomStudy.__instances self !! k = Some o ->
             dcmName o = snd e).
  { intros k e o He Ho.
    assert (Hk : map snd (dcmLocated (fs w1) dcmDir) !! k = Some (snd e)).
    { change (map snd ?l) with (snd <$> l).
      rewrite list_lookup_fmap, He. reflexivity. }
    rewrite Hloc in Hk.
    change (map dcmName ?l) with (dcmName <$> l) in Hk.
    rewrite list_lookup_fmap, Ho in Hk. simpl in Hk. congruence. }
  split; [exact (Hname i (a, f) oi Hi Hoi) |].
  split; [exact (Hname j (b, g) oj Hj Hoj) |].
  split; [exact Hnot | exact Hkeep].
Qed.

End BottomUp.

(** ** Tidy *)

Section Tidy.

Context `{C : Collaborators}.

Lemma call_tidy_eval (o : object) (m : Machine) :
  DicomStudy.call_tidy o m =
  (fst (DicomInstance_tidy (inst o) (world m)),
   {| world := snd (DicomInstance_tidy (inst o) (world m));
      calls := calls m ++ [CallTidy (oid o)];
      next_oid := next_oid m |}).
Proof.
  unfold DicomStudy.call_tidy.
  destruct (DicomInstance_tidy (inst o) (world m)); reflexivity.
Qed.

(** The loop of [tidy] calls [tidy] on the instances in order, once each,
    up to and including the first call that raises. *)
Lemma tidy_loop (l : list object) : forall m,
  exists k,
    k <= length l /\
    calls (snd (for_each l DicomStudy.call_tidy m)) =
      calls m ++ release_calls (take k l) /\
    match fst (for_each l DicomStudy.call_tidy m) with
    | Ok _ => k = length l
    | Raise e =>
        exists o w, l !! (k - 1) = Some o /\ 0 < k /\
                    fst (DicomInstance_tidy (inst o) w) = Raise e
    end.
Proof.
  induction l as [| o l IH]; intros m.
  - exists 0. simpl. rewrite app_nil_r. auto.
  - simpl. unfold bind at 1 2. rewrite call_tidy_eval.
    destruct (DicomInstance_tidy (inst o) (world m)) as [[[] | e] w'] eqn:Hcall;
      simpl.
    + match goal with
      | |- context [for_each l DicomStudy.call_tidy ?m1] =>
          destruct (IH m1) as (k & Hk & Hcalls & Hres)
      end.
      exists (S k). split; [lia |]. split.
      * rewrite Hcalls. simpl. rewrite <- app_assoc. reflexivity.
      * destruct (fst (for_each l DicomStudy.call_tidy _)) as [[] | e].
        -- lia.
        -- destruct Hres as (o' & w & Ho' & Hpos & Hraise).
           exists o', w. simpl. rewrite Nat.sub_0_r.
           destruct k as [| k]; [lia |]. simpl in Ho'.
           rewrite Nat.sub_0_r in Ho'. simpl. auto with lia.
    + exists 1. split; [lia |]. split.
      * simpl. try rewrite take_0. reflexivity.
      * exists o, (world m). simpl. rewrite Hcall. auto with lia.
Qed.

(** The loop of [tidy], call by call: a release that returns is followed by
    the next one in the world it left, a release that raises ends the loop
    with what it raised. *)
Lemma tidy_loop_in_order (l : list object) : forall m,
  exists done,
    called_in_order DicomInstance_tidy l (world m) done
      (fst (for_each l DicomStudy.call_tidy m))
      (world (snd (for_each l DicomStudy.call_tidy m))) /\
    calls (snd (for_each l DicomStudy.call_tidy m)) =
      calls m ++ release_calls done.
Proof.
  induction l as [| o l IH]; intros m.
  - exists []. simpl. rewrite app_nil_r. split; [constructor | reflexivity].
  - simpl. unfold bind at 1 2 3. rewrite call_tidy_eval.
    destruct (DicomInstance_tidy (inst o) (world m)) as [[[] | e] w'] eqn:Hcall;
      simpl.
    + match goal with
      | |- context [for_each l DicomStudy.call_tidy ?m1] =>
          destruct (IH m1) as (done & Hrun & Hcalls)
      end.
      exists (o :: done). split.
      * apply (called_next _ o l (world m) w'); [exact Hcall | exact Hrun].
      * rewrite Hcalls. simpl. rewrite <- app_assoc. reflexivity.
    + exists [o]. split; [| reflexivity].
      apply called_raised. exact Hcall.
Qed.

Lemma releases_absent (o : object) (l : list object) :
  oid o ∉ map oid l -> releases o (release_calls l) = 0.
Proof.
  intros Hnot. unfold releases. apply count_occ_not_In.
  intros Hin. apply Hnot. unfold release_calls in Hin.
  apply in_map_iff in Hin. destruct Hin as (x & Hx & Hin).
  injection Hx as Hx. rewrite <- Hx.
  apply list_elem_of_In. apply in_map. exact Hin.
Qed.

(** Among distinct objects, one release call per object. *)
Lemma releases_once (o : object) (l : list object) :
  NoDup (map oid l) -> o ∈ l -> releases o (release_calls l) = 1.
Proof.
  induction l as [| x l IH]; intros Hnodup Hin.
  - apply elem_of_nil in Hin. contradiction.
  - simpl in Hnodup. apply NoDup_cons in Hnodup. destruct Hnodup as [Hx Hnodup].
    unfold releases.
    change (release_calls (x :: l)) with (CallTidy (oid x) :: release_calls l).
    apply elem_of_cons in Hin. destruct Hin as [-> | Hin].
    + rewrite count_occ_cons_eq by reflexivity.
      f_equal. apply releases_absent. exact Hx.
    + rewrite count_occ_cons_neq.
      * apply IH; assumption.
      * intros Heq. injection Heq as Heq. apply Hx. rewrite Heq.
        change (map oid l) with (oid <$> l). apply list_elem_of_fmap.
        exists o. auto.
Qed.

Lemma file_close_ok (f : nat) (w : World) : fst (file_close f w) = Ok tt.
Proof.
  unfold file_close. destruct (ofiles w !! f) as [o |]; [| reflexivity].
  destruct (of_closed o); reflexivity.
Qed.

Lemma tidy_eval (self : DicomStudy.t) (m : Machine) :
  fst (snd (DicomStudy.tidy (self, m))) = self /\
  calls (snd (snd (DicomStudy.tidy (self, m)))) =
    calls (snd (for_each (DicomStudy.__instances self) DicomStudy.call_tidy m)) /\
  is_ok (fst (DicomStudy.tidy (self, m))) =
    is_ok (fst (for_each (DicomStudy.__instances self) DicomStudy.call_tidy m)).
Proof.
  unfold DicomStudy.tidy, bind, DicomStudy.get_self, DicomStudy.on_machine.
  simpl.
  destruct (for_each (DicomStudy.__instances self) DicomStudy.call_tidy m)
    as [[[] | e] m1]; simpl; [| auto].
  destruct (DicomStudy.__output self) as [f |]; simpl; [| auto].
  unfold io. pose proof (file_close_ok f (world m1)) as Hclose.
  destruct (file_close f (world m1)) as [r w']. simpl in Hclose. subst r.
  simpl. auto.
Qed.

(** C1 (as the code has it): a call of [tidy] leaves the study as it is and
    calls [tidy] on the instances in sequence order, once each, up to and
    including the first call that raises: a release that returns is
    followed by the next one, in the world it left, and a release that
    raises ends the loop, what it raised being raised by [tidy] itself, with
    the instances after it not released and the sink not closed. [tidy]
    returns normally exactly when it has gone through the whole sequence,
    and then every instance (none, one or many) has been released exactly
    once by that call and the sink, if there is one, is closed. Nothing
    records that [tidy] has run: a second successful call releases every
    instance again. *)
Theorem tidy_releases (self : DicomStudy.t) (m : Machine) :
  let s1 := snd (DicomStudy.tidy (self, m)) in
  let s2 := snd (DicomStudy.tidy s1) in
  fst s1 = self /\
  (exists k,
     k <= length (DicomStudy.__instances self) /\
     new_calls (self, m) s1 = release_calls (take k (DicomStudy.__instances self)) /\
     (is_ok (fst (DicomStudy.tidy (self, m))) = true ->
      k = length (DicomStudy.__instances self)) /\
     (is_ok (fst (DicomStudy.tidy (self, m))) = false ->
      0 < k /\ exists o w,
        DicomStudy.__instances self !! (k - 1) = Some o /\
        is_ok (fst (DicomInstance_tidy (inst o) w)) = false)) /\
  (is_ok (fst (DicomStudy.tidy (self, m))) = true ->
   NoDup (map oid (DicomStudy.__instances self)) ->
   forall o, o ∈ DicomStudy.__instances self ->
     releases o (new_calls (self, m) s1) = 1) /\
  (is_ok (fst (DicomStudy.tidy (self, m))) = true ->
   is_ok (fst (DicomStudy.tidy s1)) = true ->
   new_calls (self, m) s2 =
     release_calls (DicomStudy.__instances self)
     ++ release_calls (DicomStudy.__instances self)) /\
  (exists done w',
     called_in_order DicomInstance_tidy (DicomStudy.__instances self) (world m)
       done (fst (DicomStudy.tidy (self, m))) w' /\
     new_calls (self, m) s1 = release_calls done /\
     world (snd s1) =
       match fst (DicomStudy.tidy (self, m)), DicomStudy.__output self with
       | Ok _, Some f => snd (file_close f w')
       | _, _ => w'
       end).
Proof.
  intros s1 s2.
  destruct (tidy_eval self m) as (Hself & Hcalls & Hok).
  destruct (tidy_loop (DicomStudy.__instances self) m) as (k & Hk & Hlog & Hres).
  assert (Hnew : new_calls (self, m) s1 =
                 release_calls (take k (DicomStudy.__instances self))).
  { unfold new_calls, s1. simpl. rewrite Hcalls, Hlog.
    apply drop_app_length. }
  assert (Hfull : is_ok (fst (DicomStudy.tidy (self, m))) = true ->
                  k = length (DicomStudy.__instances self)).
  { rewrite Hok. intros Hr.
    destruct (fst (for_each _ DicomStudy.call_tidy m)); [exact Hres | discriminate]. }
  split; [exact Hself |]. split; [| split; [| split]].
  - exists k. split; [exact Hk |]. split; [exact Hnew |]. split; [exact Hfull |].
    rewrite Hok. intros Hr.
    destruct (fst (for_each _ DicomStudy.call_tidy m)) as [| e]; [discriminate |].
    destruct Hres as (o & w & Ho & Hpos & Hraise).
    split; [exact Hpos |]. exists o, w. rewrite Hraise. auto.
  - intros Hr Hnodup o Ho. rewrite Hnew, (Hfull Hr), firstn_all.
    apply releases_once; assumption.
  - intros Hr1 Hr2.
    assert (Hs1 : s1 = (self, snd s1))
      by (transitivity (fst s1, snd s1);
          [apply surjective_pairing | f_equal; exact Hself]).
    destruct (tidy_eval self (snd s1)) as (_ & Hcalls2 & Hok2).
    destruct (tidy_loop (DicomStudy.__instances self) (snd s1))
      as (k2 & Hk2 & Hlog2 & Hres2).
    unfold s2. rewrite Hs1. unfold new_calls. simpl.
    rewrite Hcalls2, Hlog2.
    rewrite Hs1, Hok2 in Hr2.
    destruct (fst (for_each _ DicomStudy.call_tidy (snd s1))); [| discriminate].
    rewrite Hres2, firstn_all.
    unfold s1 at 1. rewrite Hcalls, Hlog, (Hfull Hr1), firstn_all.
    rewrite <- app_assoc. apply drop_app_length.
  - destruct (tidy_loop_in_order (DicomStudy.__instances self) m)
      as (done & Hrun & Hdone).
    unfold s1, new_calls. clear s1 s2 Hnew Hfull Hself Hcalls Hok Hlog Hres.
    unfold DicomStudy.tidy, bind, DicomStudy.get_self, DicomStudy.on_machine.
    cbn [fst snd].
    destruct (for_each (DicomStudy.__instances self) DicomStudy.call_tidy m)
      as [[[] | e] m1]; cbn [fst snd] in *.
    + destruct (DicomStudy.__output self) as [f |]; cbn [fst snd].
      * exists done, (world m1).
        unfold io. pose proof (file_close_ok f (world m1)) as Hclose.
        destruct (file_close f (world m1)) as [r w']. simpl in Hclose. subst r.
        cbn [fst snd world calls].
        split; [exact Hrun |]. split; [| reflexivity].
        rewrite Hdone. apply drop_app_length.
      * exists done, (world m1). simpl.
        split; [exact Hrun |]. split; [| reflexivity].
        rewrite Hdone. apply drop_app_length.
    + exists done, (world m1). simpl.
      split; [exact Hrun |]. split; [| reflexivity].
      rewrite Hdone. apply drop_app_length.
Qed.

End Tidy.

(** ** Dump *)

Section Dump.

Context `{C : Collaborators}.

Lemma debug_header_unset (self : DicomStudy.t) (m : Machine) (uid : string) :
  DicomStudy.__output self = None ->
  DicomStudy.studyInstanceUID self = Ok uid ->
  DicomStudy.debug_header (self, m) =
  (Ok tt, (self, printed ("> Study " +:+ uid +:+ nl) m)).
Proof.
  intros Hnone Huid.
  unfold DicomStudy.debug_header, bind, DicomStudy.get_self, lift_result,
    DicomStudy.on_machine, io, print.
  simpl. rewrite Huid, Hnone. reflexivity.
Qed.

(** C8: on a freshly constructed study [setOutput("")] changes nothing and
    the output stays unset; [debug] then appends its header line
    ["> Study " + studyInstanceUID() + "\n"] to standard output, with the
    files and the file objects untouched by it, and goes on to the
    instances in the state so reached. *)
Theorem debug_header_on_stdout (dcmDir url : string) (m : Machine)
    (self : DicomStudy.t) (m1 : Machine) :
  DicomStudy.__init__ dcmDir url m = (Ok self, m1) ->
  DicomStudy.setOutput "" (self, m1) = (Ok tt, (self, m1)) /\
  DicomStudy.__output self = None /\
  exists uid,
    DicomStudy.studyInstanceUID self = Ok uid /\
    let m2 := printed ("> Study " +:+ uid +:+ nl) m1 in
    DicomStudy.debug_header (self, m1) = (Ok tt, (self, m2)) /\
    stdout (world m2) = stdout (world m1) +:+ ("> Study " +:+ uid +:+ nl) /\
    fs (world m2) = fs (world m1) /\
    ofiles (world m2) = ofiles (world m1) /\
    DicomStudy.debug (self, m1) = DicomStudy.debug_instances (self, m2) /\
    (DicomStudy.__instances self = [] ->
     DicomStudy.debug (self, m1) = (Ok tt, (self, m2))).
Proof.
  intros Hinit.
  destruct (init_ok_inv dcmDir url m self m1 Hinit)
    as (dd & w1 & _ & _ & Hnone & _).
  split; [reflexivity |]. split; [exact Hnone |].
  eexists. split; [apply studyInstanceUID_first |].
  set (uid := match DicomStudy.__instances self with
              | [] => ""
              | o :: _ => DicomInstance_studyInstanceUID (inst o)
              end).
  pose proof (debug_header_unset self m1 uid Hnone (studyInstanceUID_first self))
    as Hheader.
  simpl. split; [exact Hheader |]. repeat (split; [reflexivity |]).
  assert (Hdebug : DicomStudy.debug (self, m1) =
                   DicomStudy.debug_instances
                     (self, printed ("> Study " +:+ uid +:+ nl) m1)).
  { unfold DicomStudy.debug, bind at 1. rewrite Hheader. reflexivity. }
  split; [exact Hdebug |].
  intros Hempty. rewrite Hdebug.
  unfold DicomStudy.debug_instances, bind, DicomStudy.get_self,
    DicomStudy.numInstances.
  simpl. rewrite Hempty. reflexivity.
Qed.

End Dump.

(** ** The properties on the concrete setting *)

Section OnSample.

#[local] Existing Instance Sample.collaborators.

(** C5 at [instance(-1)] on a study of three instances: the last instance
    is returned although [-1] is outside [[0, 3)]. *)
Lemma instance_minus_one_succeeds :
  ~ fails_exactly_outside_0_count (fst Sample.studyA) (-1).
Proof.
  unfold fails_exactly_outside_0_count. intros [_ Hfail].
  assert (Hok : is_ok (DicomStudy.instance (fst Sample.studyA) (-1)) = true)
    by (vm_compute; reflexivity).
  rewrite Hfail in Hok; [discriminate |].
  intros [Hlo _]. lia.
Qed.

(** C2 on a study whose first instance has SOP instance UID [1.2.3] and
    study instance UID [1.2]: the result is [1.2]. *)
Lemma studyInstanceUID_is_not_sop :
  DicomStudy.studyInstanceUID (fst Sample.studyA) = Ok "1.2" /\
  ~ returns_first_sopInstanceUID (fst Sample.studyA).
Proof.
  split; [vm_compute; reflexivity |].
  unfold returns_first_sopInstanceUID. vm_compute. discriminate.
Qed.

Lemma setOutput_existing_path_witness :
  DicomStudy.__output (fst Sample.studyA) = None /\
  os.access (fs (world (snd Sample.studyA))) "/out.txt" = true /\
  DicomStudy.setOutput "/out.txt" (fst Sample.studyA, snd Sample.studyA) =
  (Raise (IOError "File already exists - /out.txt"),
   (fst Sample.studyA, snd Sample.studyA)).
Proof.
  split; [vm_compute; reflexivity |].
  split; [vm_compute; reflexivity |].
  apply (setOutput_existing_path (fst Sample.studyA) (snd Sample.studyA) "/out.txt");
    vm_compute; reflexivity.
Defined.

Lemma setOutput_empty_keeps_sink_witness :
  DicomStudy.__output (fst Sample.studyA_redirected) = Some 0 /\
  DicomStudy.setOutput ""
    (fst Sample.studyA_redirected, snd Sample.studyA_redirected) =
  (Ok tt, (fst Sample.studyA_redirected, snd Sample.studyA_redirected)).
Proof.
  split; [vm_compute; reflexivity |].
  apply (setOutput_empty_keeps_sink
           (fst Sample.studyA_redirected) (snd Sample.studyA_redirected) 0).
  vm_compute; reflexivity.
Defined.

(** C3 at [setOutput("/other.txt")] on a study whose sink is the open file
    [/new.txt]: the call raises [NameError]; the old sink is still attached
    and open, and [/other.txt] has not been created. *)
Lemma setOutput_reattach_raises :
  DicomStudy.__output (fst Sample.studyA_redirected) = Some 0 /\
  os.access (fs (world (snd Sample.studyA_redirected))) "/other.txt" = false /\
  DicomStudy.setOutput "/other.txt" Sample.studyA_redirected =
  (Raise (NameError "global name 'close' is not defined"),
   Sample.studyA_redirected) /\
  ofiles (world (snd Sample.studyA_redirected)) !! 0 =
  Some {| of_path := ["new.txt"]; of_closed := false |}.
Proof.
  repeat split; vm_compute; reflexivity.
Qed.

Lemma init_requires_directory_witness :
  (os.path.isdir (fs (world Sample.machine)) "/studies/Z" = false /\
   DicomStudy.__init__ "/studies/Z" "dict" Sample.machine =
   (Raise (IOError "Directory does not exist - /studies/Z"), Sample.machine)) /\
  (os.path.isdir (fs (world Sample.machine)) "/studies/A" = true /\
   match DicomStudy.__init__ "/studies/A" "dict" Sample.machine with
   | (Ok self, _) =>
       DicomStudy.__dcmDir self = "/studies/A" /\ DicomStudy.__output self = None
   | (Raise e, _) => raised_by_constructor e
   end).
Proof.
  split; (split; [vm_compute; reflexivity |]).
  - apply (proj1 (init_requires_directory "/studies/Z" "dict" Sample.machine)).
    vm_compute; reflexivity.
  - apply (proj2 (init_requires_directory "/studies/A" "dict" Sample.machine)).
    vm_compute; reflexivity.
Defined.

Lemma index_keeps_later_witness :
  DicomStudy.__init__ "/studies/A" "dict" Sample.machine =
    (Ok (fst Sample.studyA), snd Sample.studyA) /\
  DicomStudy.numInstances (fst Sample.studyA) = 3%Z /\
  DicomStudy.instanceByUID (fst Sample.studyA) "1.2.3" =
    Ok (Sample.obj 1 "/studies/A/a.dcm" ["D"; "1.2.3"; "1.2"]).
Proof.
  assert (Hinit : DicomStudy.__init__ "/studies/A" "dict" Sample.machine =
                  (Ok (fst Sample.studyA), snd Sample.studyA))
    by (vm_compute; reflexivity).
  split; [exact Hinit |].
  destruct (index_keeps_later "/studies/A" "dict" Sample.machine
              (fst Sample.studyA) (snd Sample.studyA) Hinit)
    as (dd & w1 & Hdd & Hnames & Hcount & Hkeep).
  split.
  - rewrite Hcount. injection Hdd as <- <-. vm_compute. reflexivity.
  - apply (Hkeep 0 1
             (Sample.obj 0 "/studies/A/sub/b.dcm" ["D"; "1.2.3"; "1.2"])
             (Sample.obj 1 "/studies/A/a.dcm" ["D"; "1.2.3"; "1.2"]));
      [lia | vm_compute; reflexivity | vm_compute; reflexivity | reflexivity |].
    intros k ok Hk Hlookup.
    destruct k as [| [| [| k]]]; [lia | lia | | vm_compute in Hlookup; discriminate].
    vm_compute in Hlookup. injection Hlookup as <-. vm_compute. discriminate.
Defined.

Lemma walk_bottom_up_witness :
  DicomStudy.__init__ "/studies/A" "dict" Sample.machine =
    (Ok (fst Sample.studyA), snd Sample.studyA) /\
  dcmLocated (fs (world Sample.machine)) "/studies/A" =
    [([2], "/studies/A/sub/b.dcm"); ([], "/studies/A/a.dcm");
     ([], "/studies/A/c.dcm")] /\
  DicomStudy.__instancesByUID (fst Sample.studyA) !! "1.2.3" =
    Some (Sample.obj 1 "/studies/A/a.dcm" ["D"; "1.2.3"; "1.2"]).
Proof.
  assert (Hinit : DicomStudy.__init__ "/studies/A" "dict" Sample.machine =
                  (Ok (fst Sample.studyA), snd Sample.studyA))
    by (vm_compute; reflexivity).
  split; [exact Hinit |].
  split; [vm_compute; reflexivity |].
  destruct (walk_bottom_up "/studies/A" "dict" Sample.machine
              (fst Sample.studyA) (snd Sample.studyA) Hinit)
    as (dd & w1 & Hdd & _ & Horder).
  injection Hdd as <- <-.
  destruct (Horder 0 1 [2] [] "/studies/A/sub/b.dcm" "/studies/A/a.dcm")
    as [_ Hkeep];
    [vm_compute; reflexivity | vm_compute; reflexivity | exists 2, []; reflexivity |].
  destruct (Hkeep (Sample.obj 0 "/studies/A/sub/b.dcm" ["D"; "1.2.3"; "1.2"])
                  (Sample.obj 1 "/studies/A/a.dcm" ["D"; "1.2.3"; "1.2"]))
    as (_ & _ & _ & Hupper);
    [vm_compute; reflexivity | vm_compute; reflexivity | reflexivity |].
  apply Hupper.
  intros k ok Hk Hlookup.
  destruct k as [| [| [| k]]]; [lia | lia | | vm_compute in Hlookup; discriminate].
  vm_compute in Hlookup. injection Hlookup as <-. vm_compute. discriminate.
Defined.

Lemma tidy_releases_witness :
  is_ok (fst (DicomStudy.tidy (fst Sample.studyA, snd Sample.studyA))) = true /\
  new_calls (fst Sample.studyA, snd Sample.studyA)
    (snd (DicomStudy.tidy (fst Sample.studyA, snd Sample.studyA))) =
  [CallTidy 0; CallTidy 1; CallTidy 2] /\
  fst (DicomStudy.tidy (fst Sample.studyB, snd Sample.studyB)) =
    Raise (CollaboratorError "locked") /\
  new_calls (fst Sample.studyB, snd Sample.studyB)
    (snd (DicomStudy.tidy (fst Sample.studyB, snd Sample.studyB))) =
  [CallTidy 0].
Proof.
  assert (Hok : is_ok (fst (DicomStudy.tidy (fst Sample.studyA, snd Sample.studyA)))
                = true) by (vm_compute; reflexivity).
  split; [exact Hok |].
  destruct (tidy_releases (fst Sample.studyA) (snd Sample.studyA))
    as (_ & (k & _ & Hnew & Hfull & _) & _).
  split; [rewrite Hnew, (Hfull Hok); vm_compute; reflexivity |].
  destruct (tidy_releases (fst Sample.studyB) (snd Sample.studyB))
    as (_ & _ & _ & _ & done & w' & Hrun & Hdone & _).
  assert (Hl : DicomStudy.__instances (fst Sample.studyB) =
               [Sample.obj 0 "/studies/B/x.dcm" ["D"; "9.1"; "9"; "locked"];
                Sample.obj 1 "/studies/B/y.dcm" ["D"; "9.2"; "9"]])
    by (vm_compute; reflexivity).
  rewrite Hl in Hrun. rewrite Hdone. clear Hdone Hl.
  inversion Hrun; subst.
  - match goal with
    | Hcall : DicomInstance_tidy _ _ = (Ok tt, _) |- _ =>
        vm_compute in Hcall; discriminate
    end.
  - split; [vm_compute; reflexivity | reflexivity].
Defined.

(** C1 on two studies: after two calls of [tidy] the first instance of
    [/studies/A] has been released twice; in [/studies/B] the release of the
    first instance fails and the second instance is never released. *)
Lemma tidy_not_once_per_lifetime :
  ~ released_once_per_lifetime Sample.studyA /\
  ~ released_once_per_lifetime Sample.studyB.
Proof.
  split; intros Honce.
  - destruct (Honce (Sample.obj 0 "/studies/A/sub/b.dcm" ["D"; "1.2.3"; "1.2"]))
      as [_ Htwice].
    + apply list_elem_of_lookup. exists 0. vm_compute. reflexivity.
    + vm_compute in Htwice. discriminate.
  - destruct (Honce (Sample.obj 1 "/studies/B/y.dcm" ["D"; "9.2"; "9"]))
      as [Hnever _].
    + apply list_elem_of_lookup. exists 1. vm_compute. reflexivity.
    + vm_compute in Hnever. discriminate.
Qed.

Lemma debug_header_on_stdout_witness :
  DicomStudy.__init__ "/studies/A" "dict" Sample.machine =
    (Ok (fst Sample.studyA), snd Sample.studyA) /\
  DicomStudy.debug_header (fst Sample.studyA, snd Sample.studyA) =
    (Ok tt, (fst Sample.studyA,
             printed ("> Study 1.2" +:+ nl) (snd Sample.studyA))).
Proof.
  assert (Hinit : DicomStudy.__init__ "/studies/A" "dict" Sample.machine =
                  (Ok (fst Sample.studyA), snd Sample.studyA))
    by (vm_compute; reflexivity).
  split; [exact Hinit |].
  destruct (debug_header_on_stdout "/studies/A" "dict" Sample.machine
              (fst Sample.studyA) (snd Sample.studyA) Hinit)
    as (_ & _ & uid & Huid & Hheader & _).
  vm_compute in Huid. injection Huid as <-. exact Hheader.
Defined.

End OnSample.

(** ** The index and the sequence *)

Section IndexAgreement.

Context `{C : Collaborators}.

Lemma studyInstanceUID_eval (self : DicomStudy.t) :
  DicomStudy.studyInstanceUID self =
  Ok (match DicomStudy.__instances self with
      | [] => ""
      | o :: _ => DicomInstance_studyInstanceUID (inst o)
      end).
Proof.
  unfold DicomStudy.studyInstanceUID, DicomStudy.instance, DicomStudy.numInstances.
  destruct (DicomStudy.__instances self) as [| o l]; reflexivity.
Qed.

Lemma last_filter_elem {A} (P : A -> Prop) `{!forall x, Decision (P x)}
    (l : list A) (x : A) :
  last (filter P l) = Some x -> x ∈ l /\ P x.
Proof.
  intros Hlast. apply last_Some in Hlast. destruct Hlast as [l' Hl'].
  assert (Hin : x ∈ filter P l).
  { rewrite Hl'. apply elem_of_app. right. apply list_elem_of_singleton.
    reflexivity. }
  apply list_elem_of_filter in Hin. destruct Hin as [HP Hin]. auto.
Qed.

Lemma last_filter_none {A} (P : A -> Prop) `{!forall x, Decision (P x)}
    (l : list A) :
  last (filter P l) = None <-> forall x, x ∈ l -> ~ P x.
Proof.
  rewrite last_None. split.
  - intros Hnil x Hin HP. exact (filter_nil_not_elem_of P l x Hnil HP Hin).
  - intros Hnone. induction l as [| y l IH]; [reflexivity |].
    rewrite filter_cons_False.
    + apply IH. intros x Hin. apply Hnone. apply elem_of_cons. auto.
    + apply Hnone. apply elem_of_cons. auto.
Qed.

(** What [instanceByUID] returns on a study whose index was filled by
    [__read]. *)
Lemma instanceByUID_of_index (self : DicomStudy.t) (uid : string) :
  DicomStudy.__instancesByUID self =
    fold_left index_step (DicomStudy.__instances self) ∅ ->
  DicomStudy.instanceByUID self uid =
  match last_with_uid uid (DicomStudy.__instances self) with
  | Some o => Ok o
  | None => Raise (KeyError uid)
  end.
Proof.
  intros Hidx. unfold DicomStudy.instanceByUID.
  rewrite Hidx, index_lookup.
  destruct (last_with_uid uid (DicomStudy.__instances self)); [reflexivity |].
  rewrite lookup_empty. reflexivity.
Qed.

(** X1: After a construction, [instanceByUID(uid)] returns an instance of the
    sequence that reports [uid], the last one to do so, and it raises
    [KeyError(uid)] exactly when no instance of the sequence reports
    [uid]. *)
Theorem instanceByUID_agrees_with_sequence (dcmDir url : string) (m : Machine)
    (self : DicomStudy.t) (m' : Machine) (uid : string) :
  DicomStudy.__init__ dcmDir url m = (Ok self, m') ->
  (forall o, DicomStudy.instanceByUID self uid = Ok o <->
             last_with_uid uid (DicomStudy.__instances self) = Some o) /\
  (forall o, DicomStudy.instanceByUID self uid = Ok o ->
             o ∈ DicomStudy.__instances self /\
             DicomInstance_sopInstanceUID (inst o) = uid) /\
  (DicomStudy.instanceByUID self uid = Raise (KeyError uid) <->
   forall o, o ∈ DicomStudy.__instances self ->
             DicomInstance_sopInstanceUID (inst o) <> uid) /\
  (is_ok (DicomStudy.instanceByUID self uid) = true <->
   exists o, o ∈ DicomStudy.__instances self /\
             DicomInstance_sopInstanceUID (inst o) = uid).
Proof.
  intros Hinit.
  destruct (init_ok_inv dcmDir url m self m' Hinit)
    as (dd & w1 & _ & _ & _ & _ & _ & Hidx).
  rewrite (instanceByUID_of_index self uid Hidx).
  unfold last_with_uid.
  destruct (last (filter _ (DicomStudy.__instances self))) as [x |] eqn:Hlast.
  - destruct (last_filter_elem _ _ _ Hlast) as [Hin Hx].
    split; [| split; [| split]].
    + intros o. split; intros Heq; injection Heq as <-; reflexivity.
    + intros o Heq. injection Heq as <-. auto.
    + split; [discriminate |].
      intros Hnone. exfalso. exact (Hnone x Hin Hx).
    + split; [| reflexivity]. intros _. exists x. auto.
  - pose proof (proj1 (last_filter_none _ _) Hlast) as Hnone.
    split; [| split; [| split]].
    + intros o. split; discriminate.
    + intros o. discriminate.
    + split; [intros _; exact Hnone | reflexivity].
    + split; [discriminate |].
      intros (o & Hin & Ho). exfalso. exact (Hnone o Hin Ho).
Qed.

(** X2: When the instances of a constructed study report pairwise distinct SOP
    instance UIDs, every instance of the sequence is the one that
    [instanceByUID] returns for its identifier. *)
Theorem instanceByUID_retrieves_each (dcmDir url : string) (m : Machine)
    (self : DicomStudy.t) (m' : Machine) :
  DicomStudy.__init__ dcmDir url m = (Ok self, m') ->
  NoDup (map (fun o => DicomInstance_sopInstanceUID (inst o))
             (DicomStudy.__instances self)) ->
  forall o, o ∈ DicomStudy.__instances self ->
    DicomStudy.instanceByUID self (DicomInstance_sopInstanceUID (inst o)) = Ok o.
Proof.
  intros Hinit Hnodup o Hin.
  destruct (init_ok_inv dcmDir url m self m' Hinit)
    as (dd & w1 & _ & _ & _ & _ & _ & Hidx).
  rewrite (instanceByUID_of_index self _ Hidx).
  apply list_elem_of_lookup in Hin. destruct Hin as [j Hj].
  destruct (last_filter_from
              (fun x => DicomInstance_sopInstanceUID (inst x)
                        = DicomInstance_sopInstanceUID (inst o))
              (DicomStudy.__instances self) j o Hj eq_refl)
    as (k & x & _ & Hk & Hx & Hlast).
  unfold last_with_uid. rewrite Hlast. f_equal.
  assert (Hjk : j = k).
  { apply (NoDup_lookup _ j k (DicomInstance_sopInstanceUID (inst o)) Hnodup).
    - change (map ?f ?l) with (f <$> l). rewrite list_lookup_fmap, Hj.
      reflexivity.
    - change (map ?f ?l) with (f <$> l). rewrite list_lookup_fmap, Hk.
      simpl. rewrite Hx. reflexivity. }
  subst k. congruence.
Qed.

(** X3: A directory without recognised files gives the empty study: no
    instances, the empty study instance UID, every positional access out of
    range and every identifier unknown. *)
Theorem empty_directory_study (dcmDir url : string) (m : Machine)
    (self : DicomStudy.t) (m' : Machine) (dd : DataDictionary) (w1 : World) :
  DicomStudy.__init__ dcmDir url m = (Ok self, m') ->
  DataDictionary_new url (world m) = (Ok dd, w1) ->
  DicomStudy.dcmNames (fs w1) dcmDir = [] ->
  DicomStudy.numInstances self = 0%Z /\
  DicomStudy.studyInstanceUID self = Ok "" /\
  (forall n, exists msg, DicomStudy.instance self n = Raise (IndexError msg)) /\
  (forall uid, DicomStudy.instanceByUID self uid = Raise (KeyError uid)) /\
  calls m' = calls m /\ next_oid m' = next_oid m.
Proof.
  intros Hinit Hdd Hnames.
  destruct (init_ok_inv dcmDir url m self m' Hinit)
    as (dd' & w1' & Hdd' & _ & _ & Hmap & _ & Hidx).
  rewrite Hdd in Hdd'. injection Hdd' as <- <-.
  rewrite Hnames in Hmap.
  assert (Hnil : DicomStudy.__instances self = [])
    by (destruct (DicomStudy.__instances self); [reflexivity | discriminate]).
  split; [unfold DicomStudy.numInstances; rewrite Hnil; reflexivity |].
  split; [rewrite studyInstanceUID_eval, Hnil; reflexivity |].
  split.
  { intros n. exists "list index out of range". apply instance_outside.
    unfold DicomStudy.numInstances. rewrite Hnil. simpl. lia. }
  split.
  { intros uid. rewrite (instanceByUID_of_index self uid Hidx), Hnil.
    reflexivity. }
  revert Hinit. unfold DicomStudy.__init__, bind, get_world, io. simpl.
  destruct (os.path.isdir (fs (world m)) dcmDir); simpl; [| discriminate].
  rewrite Hdd.
  unfold DicomStudy.__read, bind, DicomStudy.get_self, DicomStudy.on_machine,
    get_world. simpl. rewrite Hnames. simpl.
  intros Heq. injection Heq as _ <-. auto.
Qed.

End IndexAgreement.

(** ** What the walk collects *)

Section Collected.

Context `{C : Collaborators}.

Lemma dcmNames_recognised (fs : FS) (dcmDir filename : string) :
  filename ∈ DicomStudy.dcmNames fs dcmDir -> isDicom fs filename = true.
Proof.
  unfold DicomStudy.dcmNames. intros Hin.
  apply list_elem_of_In, in_flat_map in Hin.
  destruct Hin as ([[top dirs] files] & _ & Hin).
  apply list_elem_of_In, list_elem_of_filter in Hin. tauto.
Qed.

Lemma assoc_nondir (x : string) (es : list (string * node)) (c : string) :
  assoc x es = Some (File c) -> x ∈ nondirs_of es.
Proof.
  induction es as [| [name n] es IH]; [discriminate |]. simpl.
  unfold nondirs_of. simpl. fold (nondirs_of es).
  destruct (String.eqb_spec name x) as [-> | Hne].
  - intros Heq. injection Heq as ->. simpl. apply elem_of_cons. auto.
  - intros Hassoc. specialize (IH Hassoc).
    destruct n; simpl; [apply elem_of_cons; auto | exact IH].
Qed.

(** A regular file reached from a directory by the names [q] is collected
    under the name that joins [q] to [top], when that name is accepted. *)
Lemma located_complete (accept : string -> bool) (n : node) :
  forall top addr q c,
    lookup_path n q = Some (File c) -> q <> [] ->
    accept (fold_left os.path.join q top) = true ->
    fold_left os.path.join q top ∈ map snd (located accept top addr n).
Proof.
  induction n as [c0 | es IH] using node_induction;
    intros top addr q c Hlookup Hq Haccept.
  - destruct q; [congruence | discriminate].
  - destruct q as [| x q]; [congruence |]. simpl in Hlookup, Haccept |- *.
    destruct (assoc x es) as [n' |] eqn:Hassoc; [| discriminate].
    rewrite map_app. apply elem_of_app.
    destruct q as [| y q].
    + right. simpl in Hlookup. injection Hlookup as ->.
      rewrite map_map. simpl. rewrite map_id.
      apply list_elem_of_filter. split; [exact Haccept |].
      change (map ?f ?l) with (f <$> l). apply list_elem_of_fmap.
      exists x. split; [reflexivity |]. exact (assoc_nondir x es c Hassoc).
    + left. generalize 0 as k.
      induction IH as [| [name n0] es Hn0 _ IHes]; [discriminate |].
      intros k. simpl. rewrite map_app. apply elem_of_app.
      simpl in Hassoc.
      destruct (String.eqb_spec name x) as [-> | Hne].
      * left. injection Hassoc as ->.
        destruct n' as [c' | es']; [discriminate |].
        apply (Hn0 (os.path.join top x) (addr ++ [k]) (y :: q) c Hlookup);
          [discriminate | exact Haccept].
      * right. apply IHes. exact Hassoc.
Qed.

(** X4: Every instance of a constructed study comes from a file that [isDicom]
    accepts, and every accepted regular file below [dcmDir] has its
    instance in the sequence, under the name that joins the names on the
    way to it to [dcmDir]. *)
Theorem instances_are_the_recognised_files (dcmDir url : string) (m : Machine)
    (self : DicomStudy.t) (m' : Machine) :
  DicomStudy.__init__ dcmDir url m = (Ok self, m') ->
  exists dd w1,
    DataDictionary_new url (world m) = (Ok dd, w1) /\
    (forall o, o ∈ DicomStudy.__instances self ->
       isDicom (fs w1) (dcmName o) = true) /\
    (forall n q c,
       stat (fs w1) dcmDir = Some n ->
       lookup_path n q = Some (File c) -> q <> [] ->
       isDicom (fs w1) (fold_left os.path.join q dcmDir) = true ->
       exists o, o ∈ DicomStudy.__instances self /\
                 dcmName o = fold_left os.path.join q dcmDir).
Proof.
  intros Hinit.
  destruct (init_ok_inv dcmDir url m self m' Hinit)
    as (dd & w1 & Hdd & _ & _ & Hnames & _ & _).
  exists dd, w1. split; [exact Hdd |]. split.
  - intros o Hin. apply (dcmNames_recognised (fs w1) dcmDir).
    rewrite <- Hnames. change (map ?f ?l) with (f <$> l).
    apply list_elem_of_fmap. exists o. auto.
  - intros n q c Hstat Hlookup Hq Haccept.
    assert (Hin : fold_left os.path.join q dcmDir
                  ∈ map dcmName (DicomStudy.__instances self)).
    { rewrite Hnames, <- dcmLocated_names. unfold dcmLocated. rewrite Hstat.
      exact (located_complete _ n dcmDir [] q c Hlookup Hq Haccept). }
    change (map ?f ?l) with (f <$> l) in Hin.
    apply list_elem_of_fmap in Hin. destruct Hin as (o & Ho & Hin).
    exists o. auto.
Qed.

End Collected.

(** ** The dump and the sink *)

Section DumpAndSink.

Context `{C : Collaborators}.

Lemma call_debug_eval (o : object) (sink : option nat) (m : Machine) :
  DicomStudy.call_debug o sink m =
  (fst (DicomInstance_debug (inst o) sink (world m)),
   {| world := snd (DicomInstance_debug (inst o) sink (world m));
      calls := calls m ++ [CallDebug (oid o) sink];
      next_oid := next_oid m |}).
Proof.
  unfold DicomStudy.call_debug.
  destruct (DicomInstance_debug (inst o) sink (world m)); reflexivity.
Qed.

Lemma for_each_cons {S A} (x : A) (l : list A) (body : A -> M S unit) (s : S) :
  for_each (x :: l) body s =
  match body x s with
  | (Ok _, s') => for_each l body s'
  | (Raise e, s') => (Raise e, s')
  end.
Proof. reflexivity. Qed.

(** The loop of [debug] from position [j] on: the instances are visited in
    order, each with the sink of the study, up to and including the first
    whose [debug] raises. *)
Lemma debug_loop_from (self s0 : DicomStudy.t) (l : list object) :
  forall j m,
    drop j (DicomStudy.__instances self) = l ->
    let res :=
      for_each ((fun i : nat => (Z.of_nat i + 0)%Z) <$> seq j (length l))
        (fun n =>
           let* instance := lift_result (DicomStudy.instance self n) in
           DicomStudy.on_machine
             (DicomStudy.call_debug instance (DicomStudy.__output self)))
        (s0, m) in
    fst (snd res) = s0 /\
    exists k,
      k <= length l /\
      calls (snd (snd res)) =
        calls m ++ debug_calls (take k l) (DicomStudy.__output self) /\
      (is_ok (fst res) = true -> k = length l).
Proof.
  induction l as [| o l IH]; intros j m Hdrop; cbv zeta.
  - simpl. split; [reflexivity |]. exists 0. rewrite app_nil_r. auto.
  - assert (Hj : DicomStudy.__instances self !! j = Some o).
    { rewrite <- (Nat.add_0_r j), <- lookup_drop, Hdrop. reflexivity. }
    assert (Hrest : drop (S j) (DicomStudy.__instances self) = l).
    { change (S j) with (1 + j). rewrite Nat.add_comm, <- drop_drop, Hdrop.
      reflexivity. }
    assert (Hinst : DicomStudy.instance self (Z.of_nat j + 0) = Ok o).
    { destruct (instance_nonneg self (Z.of_nat j + 0)) as (o' & Ho' & Hr).
      - apply lookup_lt_Some in Hj. unfold DicomStudy.numInstances. lia.
      - replace (Z.to_nat (Z.of_nat j + 0)) with j in Ho' by lia. congruence. }
    set (body := fun n : Z => _).
    change ((fun i : nat => (Z.of_nat i + 0)%Z) <$> seq j (length (o :: l)))
      with ((Z.of_nat j + 0)%Z
            :: ((fun i : nat => (Z.of_nat i + 0)%Z) <$> seq (S j) (length l))).
    rewrite for_each_cons.
    assert (Hb : body (Z.of_nat j + 0)%Z (s0, m) =
                 (fst (DicomInstance_debug (inst o) (DicomStudy.__output self)
                         (world m)),
                  (s0,
                   {| world := snd (DicomInstance_debug (inst o)
                                      (DicomStudy.__output self) (world m));
                      calls := calls m
                               ++ [CallDebug (oid o) (DicomStudy.__output self)];
                      next_oid := next_oid m |}))).
    { unfold body, bind, lift_result. rewrite Hinst.
      unfold DicomStudy.on_machine. simpl. rewrite call_debug_eval.
      reflexivity. }
    rewrite Hb.
    destruct (DicomInstance_debug (inst o) (DicomStudy.__output self) (world m))
      as [[[] | e] w'] eqn:Hcall; simpl fst; simpl snd.
    + specialize (IH (S j)
        {| world := w';
           calls := calls m ++ [CallDebug (oid o) (DicomStudy.__output self)];
           next_oid := next_oid m |} Hrest).
      cbv zeta in IH. fold body in IH.
      destruct IH as (Hself & k & Hk & Hcalls & Hfull).
      split; [exact Hself |]. exists (S k). split; [simpl; lia |]. split.
      * rewrite Hcalls. simpl. rewrite <- app_assoc. reflexivity.
      * intros Hok. rewrite (Hfull Hok). reflexivity.
    + split; [reflexivity |]. exists 1. split; [simpl; lia |]. split.
      * simpl. try rewrite take_0. reflexivity.
      * discriminate.
Qed.

(** The same loop, call by call: a [debug] that returns is followed by the
    next one in the world it left, a [debug] that raises ends the loop with
    what it raised. *)
Lemma debug_loop_in_order (self s0 : DicomStudy.t) (l : list object) :
  forall j m,
    drop j (DicomStudy.__instances self) = l ->
    let res :=
      for_each ((fun i : nat => (Z.of_nat i + 0)%Z) <$> seq j (length l))
        (fun n =>
           let* instance := lift_result (DicomStudy.instance self n) in
           DicomStudy.on_machine
             (DicomStudy.call_debug instance (DicomStudy.__output self)))
        (s0, m) in
    exists done,
      called_in_order
        (fun i w => DicomInstance_debug i (DicomStudy.__output self) w)
        l (world m) done (fst res) (world (snd (snd res))) /\
      calls (snd (snd res)) =
        calls m ++ debug_calls done (DicomStudy.__output self).
Proof.
  induction l as [| o l IH]; intros j m Hdrop; cbv zeta.
  - simpl. exists []. rewrite app_nil_r. split; [constructor | reflexivity].
  - assert (Hj : DicomStudy.__instances self !! j = Some o).
    { rewrite <- (Nat.add_0_r j), <- lookup_drop, Hdrop. reflexivity. }
    assert (Hrest : drop (S j) (DicomStudy.__instances self) = l).
    { change (S j) with (1 + j). rewrite Nat.add_comm, <- drop_drop, Hdrop.
      reflexivity. }
    assert (Hinst : DicomStudy.instance self (Z.of_nat j + 0) = Ok o).
    { destruct (instance_nonneg self (Z.of_nat j + 0)) as (o' & Ho' & Hr).
      - apply lookup_lt_Some in Hj. unfold DicomStudy.numInstances. lia.
      - replace (Z.to_nat (Z.of_nat j + 0)) with j in Ho' by lia. congruence. }
    set (body := fun n : Z => _).
    change ((fun i : nat => (Z.of_nat i + 0)%Z) <$> seq j (length (o :: l)))
      with ((Z.of_nat j + 0)%Z
            :: ((fun i : nat => (Z.of_nat i + 0)%Z) <$> seq (S j) (length l))).
    rewrite for_each_cons.
    assert (Hb : body (Z.of_nat j + 0)%Z (s0, m) =
                 (fst (DicomInstance_debug (inst o) (DicomStudy.__output self)
                         (world m)),
                  (s0,
                   {| world := snd (DicomInstance_debug (inst o)
                                      (DicomStudy.__output self) (world m));
                      calls := calls m
                               ++ [CallDebug (oid o) (DicomStudy.__output self)];
                      next_oid := next_oid m |}))).
    { unfold body, bind, lift_result. rewrite Hinst.
      unfold DicomStudy.on_machine. simpl. rewrite call_debug_eval.
      reflexivity. }
    rewrite Hb.
    destruct (DicomInstance_debug (inst o) (DicomStudy.__output self) (world m))
      as [[[] | e] w'] eqn:Hcall; simpl fst; simpl snd.
    + specialize (IH (S j)
        {| world := w';
           calls := calls m ++ [CallDebug (oid o) (DicomStudy.__output self)];
           next_oid := next_oid m |} Hrest).
      cbv zeta in IH. fold body in IH.
      destruct IH as (done & Hrun & Hcalls).
      exists (o :: done). split.
      * apply (called_next _ o l (world m) w'); [exact Hcall | exact Hrun].
      * rewrite Hcalls. simpl. rewrite <- app_assoc. reflexivity.
    + exists [o]. split; [| reflexivity].
      apply called_raised. exact Hcall.
Qed.

Lemma debug_instances_in_order (self : DicomStudy.t) (m : Machine) :
  exists done,
    called_in_order
      (fun i w => DicomInstance_debug i (DicomStudy.__output self) w)
      (DicomStudy.__instances self) (world m) done
      (fst (DicomStudy.debug_instances (self, m)))
      (world (snd (snd (DicomStudy.debug_instances (self, m))))) /\
    calls (snd (snd (DicomStudy.debug_instances (self, m)))) =
      calls m ++ debug_calls done (DicomStudy.__output self).
Proof.
  assert (Heq : DicomStudy.debug_instances (self, m) =
                for_each
                  ((fun i : nat => (Z.of_nat i + 0)%Z)
                     <$> seq 0 (length (DicomStudy.__instances self)))
                  (fun n =>
                     let* instance := lift_result (DicomStudy.instance self n) in
                     DicomStudy.on_machine
                       (DicomStudy.call_debug instance (DicomStudy.__output self)))
                  (self, m)).
  { unfold DicomStudy.debug_instances, bind at 1, DicomStudy.get_self.
    cbn [fst]. unfold DicomStudy.numInstances, seqZ. rewrite Nat2Z.id.
    reflexivity. }
  rewrite Heq.
  exact (debug_loop_in_order self self (DicomStudy.__instances self) 0 m eq_refl).
Qed.

Lemma debug_instances_visits (self : DicomStudy.t) (m : Machine) :
  fst (snd (DicomStudy.debug_instances (self, m))) = self /\
  exists k,
    k <= length (DicomStudy.__instances self) /\
    calls (snd (snd (DicomStudy.debug_instances (self, m)))) =
      calls m ++ debug_calls (take k (DicomStudy.__instances self))
                             (DicomStudy.__output self) /\
    (is_ok (fst (DicomStudy.debug_instances (self, m))) = true ->
     k = length (DicomStudy.__instances self)).
Proof.
  assert (Heq : DicomStudy.debug_instances (self, m) =
                for_each
                  ((fun i : nat => (Z.of_nat i + 0)%Z)
                     <$> seq 0 (length (DicomStudy.__instances self)))
                  (fun n =>
                     let* instance := lift_result (DicomStudy.instance self n) in
                     DicomStudy.on_machine
                       (DicomStudy.call_debug instance (DicomStudy.__output self)))
                  (self, m)).
  { unfold DicomStudy.debug_instances, bind at 1, DicomStudy.get_self.
    cbn [fst]. unfold DicomStudy.numInstances, seqZ. rewrite Nat2Z.id.
    reflexivity. }
  rewrite Heq.
  exact (debug_loop_from self self (DicomStudy.__instances self) 0 m eq_refl).
Qed.

(** The header step changes neither the study nor the log of calls. *)
Lemma debug_header_frame (self : DicomStudy.t) (m : Machine) :
  fst (snd (DicomStudy.debug_header (self, m))) = self /\
  calls (snd (snd (DicomStudy.debug_header (self, m)))) = calls m.
Proof.
  unfold DicomStudy.debug_header, bind, DicomStudy.get_self, lift_result.
  simpl. destruct (DicomStudy.studyInstanceUID self) as [uid | e]; [| auto].
  unfold DicomStudy.on_machine, io. simpl.
  destruct (DicomStudy.__output self) as [f |]; simpl; [| auto].
  destruct (file_write f _ (world m)) as [r w']. auto.
Qed.

Lemma debug_eval (s : DicomStudy.t * Machine) :
  DicomStudy.debug s =
  match DicomStudy.debug_header s with
  | (Ok _, s') => DicomStudy.debug_instances s'
  | (Raise e, s') => (Raise e, s')
  end.
Proof. reflexivity. Qed.

(** X5: [debug] leaves the study as it is. When its header cannot be
    written, [debug] raises what the write raised and visits no instance.
    Otherwise it calls [debug] on the instances in sequence order, each with
    the study's own sink: a call that returns is followed by the call on
    the next instance, in the world it left, and a call that raises is the
    last one, what it raised being raised by [debug] itself. When [debug]
    returns normally every instance has been visited once. *)
Theorem debug_visits_in_order (self : DicomStudy.t) (m : Machine) :
  fst (snd (DicomStudy.debug (self, m))) = self /\
  (exists k,
    k <= length (DicomStudy.__instances self) /\
    new_calls (self, m) (snd (DicomStudy.debug (self, m))) =
      debug_calls (take k (DicomStudy.__instances self))
                  (DicomStudy.__output self) /\
    (is_ok (fst (DicomStudy.debug (self, m))) = true ->
     k = length (DicomStudy.__instances self)) /\
    (is_ok (fst (DicomStudy.debug_header (self, m))) = false -> k = 0)) /\
  match DicomStudy.debug_header (self, m) with
  | (Raise e, s') => DicomStudy.debug (self, m) = (Raise e, s')
  | (Ok _, (_, mh)) =>
      exists done,
        called_in_order
          (fun i w => DicomInstance_debug i (DicomStudy.__output self) w)
          (DicomStudy.__instances self) (world mh) done
          (fst (DicomStudy.debug (self, m)))
          (world (snd (snd (DicomStudy.debug (self, m))))) /\
        new_calls (self, m) (snd (DicomStudy.debug (self, m))) =
          debug_calls done (DicomStudy.__output self)
  end.
Proof.
  destruct (debug_header_frame self m) as [Hself Hcalls].
  rewrite debug_eval. unfold new_calls.
  destruct (DicomStudy.debug_header (self, m)) as [[[] | e] [self1 m1]] eqn:Hh;
    simpl in Hself, Hcalls |- *.
  - subst self1.
    destruct (debug_instances_visits self m1) as (Hs & k & Hk & Hc & Hfull).
    split; [exact Hs |]. split.
    + exists k. split; [exact Hk |]. split.
      * rewrite Hc, Hcalls. apply drop_app_length.
      * split; [exact Hfull | discriminate].
    + destruct (debug_instances_in_order self m1) as (done & Hrun & Hdone).
      exists done. split; [exact Hrun |].
      rewrite Hdone, Hcalls. apply drop_app_length.
  - split; [exact Hself |]. split; [| reflexivity].
    exists 0. split; [lia |]. split.
    + rewrite Hcalls. simpl. rewrite drop_all. reflexivity.
    + split; [discriminate | reflexivity].
Qed.

Lemma debug_keeps_self (self : DicomStudy.t) (m : Machine) :
  fst (snd (DicomStudy.debug (self, m))) = self.
Proof.
  rewrite debug_eval. destruct (debug_header_frame self m) as [Hself _].
  destruct (DicomStudy.debug_header (self, m)) as [[[] | e] [self1 m1]];
    simpl in Hself |- *; [| exact Hself].
  subst self1. exact (proj1 (debug_instances_visits self m1)).
Qed.

End DumpAndSink.

(** ** Files that are created or written *)

Section Files.

Lemma assoc_put_entry_eq (x : string) (c : node) (es : list (string * node)) :
  assoc x (put_entry x c es) = Some c.
Proof.
  induction es as [| [n c0] es IH]; simpl.
  - rewrite String.eqb_refl. reflexivity.
  - destruct (String.eqb n x) eqn:Hn; simpl; rewrite Hn; [reflexivity | exact IH].
Qed.

Lemma assoc_put_entry_ne (x y : string) (c : node) (es : list (string * node)) :
  x <> y -> assoc y (put_entry x c es) = assoc y es.
Proof.
  intros Hne. induction es as [| [n c0] es IH]; simpl.
  - destruct (String.eqb_spec x y); [contradiction | reflexivity].
  - destruct (String.eqb_spec n x) as [-> | Hnx]; simpl.
    + destruct (String.eqb_spec x y); [contradiction | reflexivity].
    + rewrite IH. reflexivity.
Qed.

(** Storing at [p] makes [p] lead to what was stored, when [p] exists
    already or its parent is a directory. *)
Lemma lookup_store (p : list string) : forall (r c : node),
  lookup_path r p <> None \/
  (p <> [] /\ is_dir_at r (removelast p) = true) ->
  lookup_path (store r p c) p = Some c.
Proof.
  induction p as [| x p IH]; intros r c Hp; [reflexivity |].
  simpl. destruct r as [c0 | es].
  - exfalso. destruct Hp as [Hp | [_ Hp]]; [apply Hp; reflexivity |].
    unfold is_dir_at in Hp. destruct p; simpl in Hp; discriminate.
  - destruct (assoc x es) as [n' |] eqn:Hassoc.
    + simpl. rewrite assoc_put_entry_eq. apply IH.
      destruct Hp as [Hp | [_ Hp]].
      * left. simpl in Hp. rewrite Hassoc in Hp. exact Hp.
      * destruct p as [| y p]; [left; discriminate |].
        right. split; [discriminate |].
        unfold is_dir_at in *. simpl in Hp. rewrite Hassoc in Hp. exact Hp.
    + destruct p as [| y p].
      * simpl. rewrite assoc_put_entry_eq. reflexivity.
      * exfalso. destruct Hp as [Hp | [_ Hp]].
        -- apply Hp. simpl. rewrite Hassoc. reflexivity.
        -- unfold is_dir_at in Hp. simpl in Hp. rewrite Hassoc in Hp.
           discriminate.
Qed.

(** Storing a regular file where there is no directory changes nothing
    about which names lead to directories. *)
Lemma store_keeps_dirs (p : list string) : forall (r : node) (c : string) q,
  is_dir_at r p = false ->
  is_dir_at (store r p (File c)) q = is_dir_at r q.
Proof.
  unfold is_dir_at.
  induction p as [| x p IH]; intros r c q Hp.
  - simpl in *. destruct r as [c0 | es]; [| discriminate].
    destruct q; reflexivity.
  - simpl. destruct r as [c0 | es]; [reflexivity |].
    destruct (assoc x es) as [n' |] eqn:Hassoc.
    + destruct q as [| y q]; [reflexivity |]. simpl.
      destruct (String.eqb_spec x y) as [<- | Hne].
      * rewrite assoc_put_entry_eq, Hassoc. apply IH.
        simpl in Hp. rewrite Hassoc in Hp. exact Hp.
      * rewrite (assoc_put_entry_ne x y _ es Hne). reflexivity.
    + destruct p as [| z p]; [| reflexivity].
      destruct q as [| y q]; [reflexivity |]. simpl.
      destruct (String.eqb_spec x y) as [<- | Hne].
      * rewrite assoc_put_entry_eq, Hassoc. destruct q; reflexivity.
      * rewrite (assoc_put_entry_ne x y _ es Hne). reflexivity.
Qed.

Lemma walk_component_dirs (r r' : node) (acc : option (list string)) (c : string) :
  (forall q, is_dir_at r' q = is_dir_at r q) ->
  walk_component r' acc c = walk_component r acc c.
Proof.
  intros Hdirs. destruct acc as [p |]; [| reflexivity]. simpl.
  specialize (Hdirs p). unfold is_dir_at in Hdirs.
  destruct (lookup_path r' p) as [[|] |], (lookup_path r p) as [[|] |];
    try reflexivity; discriminate.
Qed.

(** Path-name resolution depends on the directories only. *)
Lemma resolve_dirs (fs fs' : FS) (path : string) :
  cwd fs' = cwd fs ->
  (forall q, is_dir_at (root fs') q = is_dir_at (root fs) q) ->
  resolve fs' path = resolve fs path.
Proof.
  intros Hcwd Hdirs. unfold resolve. rewrite Hcwd.
  destruct (String.eqb path ""); [reflexivity |].
  generalize (Some (if startswith_slash path then [] else cwd fs)) as acc.
  induction (split_slash path) as [| c l IH]; intros acc; [reflexivity |].
  simpl. rewrite (walk_component_dirs _ _ acc c Hdirs). apply IH.
Qed.

Lemma split_slash_last (s : string) :
  exists l c, split_slash s = l ++ [c].
Proof.
  destruct (split_slash s) as [| x l] eqn:Hs.
  - exfalso. destruct s as [| a s]; simpl in Hs; [discriminate |].
    destruct (Ascii.eqb a "/"); [discriminate |].
    destruct (split_slash s); discriminate.
  - destruct (exists_last (l := x :: l)) as (l' & c & Heq); [discriminate |].
    exists l', c. exact Heq.
Qed.

Lemma lookup_removelast (q : list string) : forall r,
  lookup_path r q <> None -> is_dir_at r (removelast q) = true \/ q = [].
Proof.
  unfold is_dir_at.
  induction q as [| x q IH]; intros r Hq; [right; reflexivity |].
  left. destruct q as [| y q].
  - simpl in *. destruct r; [congruence | reflexivity].
  - change (removelast (x :: y :: q)) with (x :: removelast (y :: q)).
    simpl in Hq |- *. destruct r as [| es]; [congruence |].
    destruct (assoc x es) as [n' |]; [| congruence].
    destruct (IH n' Hq) as [Hd | Hnil]; [exact Hd | discriminate].
Qed.

(** A path that resolves to nothing has a directory for parent. *)
Lemma resolve_parent (fs : FS) (path : string) (p : list string) :
  resolve fs path = Some p ->
  lookup_path (root fs) p = None ->
  p <> [] /\ is_dir_at (root fs) (removelast p) = true.
Proof.
  unfold resolve. destruct (String.eqb path ""); [discriminate |].
  destruct (split_slash_last path) as (l & c & ->).
  rewrite fold_left_app. simpl.
  destruct (fold_left _ l _) as [p0 |]; [| discriminate]. simpl.
  destruct (lookup_path (root fs) p0) as [[c0 | es] |] eqn:Hp0; try discriminate.
  destruct (String.eqb c "" || String.eqb c ".").
  - intros Heq Hnone. injection Heq as <-. congruence.
  - destruct (String.eqb c "..").
    + intros Heq Hnone. injection Heq as <-. exfalso.
      destruct (lookup_removelast p0 (root fs)) as [Hd | ->];
        [congruence | | simpl in Hnone; congruence].
      unfold is_dir_at in Hd. rewrite Hnone in Hd. discriminate.
    + intros Heq _. injection Heq as <-. split.
      * destruct p0; discriminate.
      * rewrite removelast_last. unfold is_dir_at. rewrite Hp0. reflexivity.
Qed.

End Files.

(** ** Attaching, writing and closing the sink *)

Section Sink.

Context `{C : Collaborators}.

Lemma machine_eta (m : Machine) :
  {| world := world m; calls := calls m; next_oid := next_oid m |} = m.
Proof. destruct m; reflexivity. Qed.

Lemma world_eta (w : World) :
  {| fs := fs w; stdout := stdout w; ofiles := ofiles w;
     written := written w |} = w.
Proof. destruct w; reflexivity. Qed.

(** [setOutput] on a study without sink and a path that is not empty. *)
Lemma setOutput_unattached (self : DicomStudy.t) (m : Machine) (output : string) :
  DicomStudy.__output self = None ->
  output <> "" ->
  DicomStudy.setOutput output (self, m) =
  if os.access (fs (world m)) output then
    (Raise (IOError ("File already exists - " +:+ output)), (self, m))
  else
    match open_w output (world m) with
    | (Ok f, w') =>
        (Ok tt,
         ({| DicomStudy.__dcmDir := DicomStudy.__dcmDir self;
             DicomStudy.__instances := DicomStudy.__instances self;
             DicomStudy.__instancesByUID := DicomStudy.__instancesByUID self;
             DicomStudy.__dataDictionary := DicomStudy.__dataDictionary self;
             DicomStudy.__output := Some f |},
          {| world := w'; calls := calls m; next_oid := next_oid m |}))
    | (Raise e, w') =>
        (Raise e, (self, {| world := w'; calls := calls m; next_oid := next_oid m |}))
    end.
Proof.
  intros Hnone Hne. unfold DicomStudy.setOutput.
  destruct (String.eqb_spec output "") as [-> | _]; [congruence |].
  unfold bind, DicomStudy.get_self, DicomStudy.on_machine, get_world, io,
    DicomStudy.put_self.
  simpl. rewrite Hnone. simpl.
  destruct (os.access (fs (world m)) output); [reflexivity |].
  cbn [fst snd].
  destruct (open_w output (world m)) as [[f | e] w']; reflexivity.
Qed.

(** X7: With no sink attached, [setOutput] on a path that does not exist either
    raises [IOError] and changes nothing, or creates an empty regular file
    at that path and attaches a new, open file object for it; the path
    exists from then on, and the instances, the index, standard output and
    the log of calls are as before. It never raises [NameError]. *)
Theorem setOutput_new_path (self : DicomStudy.t) (m : Machine) (output : string) :
  DicomStudy.__output self = None ->
  output <> "" ->
  os.access (fs (world m)) output = false ->
  let res := DicomStudy.setOutput output (self, m) in
  match fst res with
  | Ok _ =>
      same_contents self (fst (snd res)) /\
      DicomStudy.__output (fst (snd res)) = Some (length (ofiles (world m))) /\
      (exists p,
         ofiles (world (snd (snd res))) =
           ofiles (world m) ++ [{| of_path := p; of_closed := false |}] /\
         lookup_path (root (fs (world (snd (snd res))))) p = Some (File "")) /\
      stat (fs (world (snd (snd res)))) output = Some (File "") /\
      os.access (fs (world (snd (snd res)))) output = true /\
      stdout (world (snd (snd res))) = stdout (world m) /\
      calls (snd (snd res)) = calls m
  | Raise e => (exists msg, e = IOError msg) /\ snd res = (self, m)
  end.
Proof.
  intros Hnone Hne Haccess res. subst res.
  rewrite (setOutput_unattached self m output Hnone Hne), Haccess.
  unfold os.access, stat in Haccess. unfold open_w.
  destruct (resolve (fs (world m)) output) as [p |] eqn:Hres.
  - destruct (lookup_path (root (fs (world m))) p) eqn:Hlook; [discriminate |].
    simpl.
    assert (Hstored : lookup_path
                        (store (root (fs (world m))) p (File "")) p
                      = Some (File "")).
    { apply lookup_store. right.
      exact (resolve_parent (fs (world m)) output p Hres Hlook). }
    assert (Hstat : stat {| root := store (root (fs (world m))) p (File "");
                            cwd := cwd (fs (world m)) |} output
                    = Some (File "")).
    { unfold stat.
      rewrite (resolve_dirs (fs (world m)) _ output); [| reflexivity |].
      - rewrite Hres. exact Hstored.
      - intros q. simpl. apply store_keeps_dirs.
        unfold is_dir_at. rewrite Hlook. reflexivity. }
    split; [repeat split |]. split; [reflexivity |].
    split; [exists p; split; [reflexivity | exact Hstored] |].
    split; [exact Hstat |].
    split; [unfold os.access; rewrite Hstat; reflexivity |].
    split; reflexivity.
  - simpl. split; [eauto |]. rewrite machine_eta. reflexivity.
Qed.

(** X8: No call of [setOutput], [debug] or [tidy] changes the directory, the
    sequence, the index or the dictionary of a study, whatever its
    outcome; [debug] and [tidy] do not change the sink either. *)
Theorem methods_keep_contents (self : DicomStudy.t) (m : Machine) (output : string) :
  same_contents self (fst (snd (DicomStudy.setOutput output (self, m)))) /\
  fst (snd (DicomStudy.debug (self, m))) = self /\
  fst (snd (DicomStudy.tidy (self, m))) = self.
Proof.
  split; [| split].
  - destruct (String.eqb_spec output "") as [-> | Hne].
    { rewrite setOutput_empty. repeat split. }
    destruct (DicomStudy.__output self) as [f |] eqn:Hout.
    { rewrite (setOutput_attached self m f output Hout Hne). repeat split. }
    rewrite (setOutput_unattached self m output Hout Hne).
    destruct (os.access (fs (world m)) output); [repeat split |].
    destruct (open_w output (world m)) as [[f | e] w']; repeat split.
  - exact (debug_keeps_self self m).
  - exact (proj1 (tidy_eval self m)).
Qed.

End Sink.

Section SinkLifecycle.

Context `{C : Collaborators}.

(** X6: With an open sink, the header line of [debug] is written through
    the file object of the sink: it is appended to the text that object
    holds, which reaches the file when the object is closed. Nothing is
    written to standard output, no other file object receives text, and the
    study and the state of the file objects are unchanged. *)
Theorem debug_header_to_file (self : DicomStudy.t) (m : Machine) (f : nat)
    (o : ofile) :
  DicomStudy.__output self = Some f ->
  ofiles (world m) !! f = Some o ->
  of_closed o = false ->
  exists uid,
    DicomStudy.studyInstanceUID self = Ok uid /\
    fst (DicomStudy.debug_header (self, m)) = Ok tt /\
    fst (snd (DicomStudy.debug_header (self, m))) = self /\
    held f (world (snd (snd (DicomStudy.debug_header (self, m)))))
      = held f (world m) +:+ ("> Study " +:+ uid +:+ nl) /\
    (forall g, g <> f ->
       held g (world (snd (snd (DicomStudy.debug_header (self, m)))))
       = held g (world m)) /\
    stdout (world (snd (snd (DicomStudy.debug_header (self, m)))))
      = stdout (world m) /\
    ofiles (world (snd (snd (DicomStudy.debug_header (self, m)))))
      = ofiles (world m).
Proof.
  intros Hout Hfile Hopen.
  eexists. split; [apply studyInstanceUID_eval |].
  unfold DicomStudy.debug_header, bind, DicomStudy.get_self, lift_result.
  simpl. rewrite studyInstanceUID_eval, Hout.
  unfold DicomStudy.on_machine, io, file_write. simpl.
  rewrite Hfile, Hopen. simpl.
  split; [reflexivity |]. split; [reflexivity |]. split.
  - unfold held at 1. simpl. rewrite lookup_insert_eq. reflexivity.
  - split; [| split; reflexivity].
    intros g Hg. unfold held. simpl. rewrite lookup_insert_ne by congruence.
    reflexivity.
Qed.

Lemma tidy_unfold (self : DicomStudy.t) (m : Machine) :
  DicomStudy.tidy (self, m) =
  match for_each (DicomStudy.__instances self) DicomStudy.call_tidy m with
  | (Ok _, m1) =>
      match DicomStudy.__output self with
      | Some f =>
          (Ok tt,
           (self,
            {| world := snd (file_close f (world m1));
               calls := calls m1; next_oid := next_oid m1 |}))
      | None => (Ok tt, (self, m1))
      end
  | (Raise e, m1) => (Raise e, (self, m1))
  end.
Proof.
  unfold DicomStudy.tidy, bind, DicomStudy.get_self, DicomStudy.on_machine.
  simpl.
  destruct (for_each (DicomStudy.__instances self) DicomStudy.call_tidy m)
    as [[[] | e] m1]; simpl; [| reflexivity].
  destruct (DicomStudy.__output self) as [f |]; [| reflexivity].
  unfold io. cbn [fst snd]. pose proof (file_close_ok f (world m1)) as Hclose.
  destruct (file_close f (world m1)) as [r w']. simpl in Hclose. subst r.
  reflexivity.
Qed.

Lemma file_close_ofiles (f : nat) (w : World) :
  ofiles (snd (file_close f w)) =
  alter (fun o => {| of_path := of_path o; of_closed := true |}) f (ofiles w).
Proof.
  unfold file_close. destruct (ofiles w !! f) as [o |] eqn:Hf.
  - destruct (of_closed o) eqn:Hclosed; [| reflexivity]. simpl.
    apply list_eq. intros i. rewrite list_lookup_alter.
    destruct (decide (f = i)) as [<- | _]; [| reflexivity].
    rewrite Hf. simpl. destruct o; simpl in *; congruence.
  - simpl. apply list_eq. intros i. rewrite list_lookup_alter.
    destruct (decide (f = i)) as [<- | _]; [| reflexivity].
    rewrite Hf. reflexivity.
Qed.

(** The file objects are not touched by the loop of [tidy] when the
    instances do not touch them. *)
Lemma tidy_loop_ofiles (l : list object) :
  (forall i w, ofiles (snd (DicomInstance_tidy i w)) = ofiles w) ->
  forall m,
    ofiles (world (snd (for_each l DicomStudy.call_tidy m))) = ofiles (world m).
Proof.
  intros Hkeep. induction l as [| o l IH]; intros m; [reflexivity |].
  rewrite for_each_cons, call_tidy_eval.
  destruct (fst (DicomInstance_tidy (inst o) (world m))) as [[] | e].
  - rewrite IH. simpl. apply Hkeep.
  - simpl. apply Hkeep.
Qed.

(** X9: A [tidy] that returns normally has closed the sink of the study: its
    file object, if it is still there, is closed. When the instances leave
    the file objects alone, the file objects after a successful [tidy] are
    those before it with the sink closed, and after a [tidy] that raises
    they are those before it: the sink is left open. *)
Theorem tidy_closes_sink (self : DicomStudy.t) (m : Machine) (f : nat) :
  DicomStudy.__output self = Some f ->
  let m' := snd (snd (DicomStudy.tidy (self, m))) in
  (is_ok (fst (DicomStudy.tidy (self, m))) = true ->
   forall o, ofiles (world m') !! f = Some o -> of_closed o = true) /\
  ((forall i w, ofiles (snd (DicomInstance_tidy i w)) = ofiles w) ->
   (is_ok (fst (DicomStudy.tidy (self, m))) = true ->
    ofiles (world m') =
    alter (fun o => {| of_path := of_path o; of_closed := true |}) f
          (ofiles (world m))) /\
   (is_ok (fst (DicomStudy.tidy (self, m))) = false ->
    ofiles (world m') = ofiles (world m))).
Proof.
  intros Hout m'. subst m'. rewrite tidy_unfold, Hout.
  pose proof (fun H => tidy_loop_ofiles (DicomStudy.__instances self) H m)
    as Hloop.
  destruct (for_each (DicomStudy.__instances self) DicomStudy.call_tidy m)
    as [[[] | e] m1]; cbn [fst snd is_ok world] in *.
  - rewrite file_close_ofiles. split.
    + intros _ o Ho. rewrite list_lookup_alter_eq in Ho.
      destruct (ofiles (world m1) !! f); [| discriminate].
      simpl in Ho. injection Ho as <-. reflexivity.
    + intros Hkeep. split; [| discriminate].
      intros _. rewrite (Hloop Hkeep). reflexivity.
  - split; [discriminate |].
    intros Hkeep. split; [discriminate |]. intros _. exact (Hloop Hkeep).
Qed.

Lemma file_write_after_close (f : nat) (s : string) (w : World) :
  file_write f s (snd (file_close f w)) =
  (Raise (ValueError "I/O operation on closed file"), snd (file_close f w)).
Proof.
  unfold file_write. rewrite file_close_ofiles, list_lookup_alter_eq.
  destruct (ofiles w !! f); reflexivity.
Qed.

(** X10: After a [tidy] that returned normally on a study with a sink, [debug]
    raises [ValueError("I/O operation on closed file")] at its header and
    changes nothing. *)
Theorem debug_after_tidy (self : DicomStudy.t) (m : Machine) (f : nat) :
  DicomStudy.__output self = Some f ->
  is_ok (fst (DicomStudy.tidy (self, m))) = true ->
  DicomStudy.debug (snd (DicomStudy.tidy (self, m))) =
  (Raise (ValueError "I/O operation on closed file"),
   snd (DicomStudy.tidy (self, m))).
Proof.
  intros Hout. rewrite tidy_unfold, Hout.
  destruct (for_each (DicomStudy.__instances self) DicomStudy.call_tidy m)
    as [[[] | e] m1]; cbn [fst snd is_ok]; [intros _ | discriminate].
  rewrite debug_eval.
  unfold DicomStudy.debug_header, bind, DicomStudy.get_self, lift_result.
  cbn [fst snd]. rewrite studyInstanceUID_eval, Hout.
  unfold DicomStudy.on_machine, io. cbn [fst snd world calls next_oid].
  rewrite file_write_after_close. reflexivity.
Qed.

End SinkLifecycle.

(** ** The command line *)

Section CommandLine.

Context `{C : Collaborators}.

Variable DCM4CHE_URL : string.

(** X11: The value of an option is the one given last, and the default when the
    option is not given. *)
Theorem option_value_last (flag default : string)
    (options : list (string * string)) :
  option_value flag default options =
  match last (filter (fun opt => fst opt = flag) options) with
  | Some opt => snd opt
  | None => default
  end.
Proof.
  unfold option_value.
  induction options as [| opt options IH] using rev_ind; [reflexivity |].
  rewrite fold_left_app, filter_app, last_app. simpl.
  destruct (String.eqb_spec (fst opt) flag) as [Heq | Hne].
  - rewrite filter_cons_True by exact Heq. reflexivity.
  - rewrite filter_cons_False by exact Hne. simpl. exact IH.
Qed.

Lemma option_given_spec (flag : string) (options : list (string * string)) :
  option_given flag options = true <-> flag ∈ map fst options.
Proof.
  unfold option_given.
  induction options as [| opt options IH] using rev_ind.
  - simpl. split; [discriminate |]. intros Hin. apply elem_of_nil in Hin.
    contradiction.
  - rewrite fold_left_app, map_app. simpl.
    destruct (String.eqb_spec (fst opt) flag) as [Heq | Hne].
    + split; [| reflexivity]. intros _. apply elem_of_app. right.
      rewrite Heq. apply elem_of_cons. auto.
    + rewrite IH. split.
      * intros Hin. apply elem_of_app. auto.
      * intros Hin. apply elem_of_app in Hin. destruct Hin as [Hin | Hin];
          [exact Hin |].
        apply elem_of_cons in Hin. destruct Hin as [Heq | Hin];
          [congruence | apply elem_of_nil in Hin; contradiction].
Qed.

(** X12: When [-h] is among the options, or no directory is given, [main] prints
    the usage text on standard output and ends with [sys.exit(1)]: no study
    is constructed, no file is touched and nothing is reported as an
    error, whatever the other options are. *)
Theorem main_usage (progName : string) (args : list string) (m : Machine)
    (options : list (string * string)) (rest : list string) :
  getopt.getopt args "d:o:h" = inr (options, rest) ->
  "-h" ∈ map fst options \/ rest = [] ->
  main DCM4CHE_URL progName args m =
  (SystemExit 1, {| machine := printed (usage progName) m; tracebacks := [] |}).
Proof.
  intros Hget Hhelp. unfold main. rewrite Hget.
  assert (Hcond : option_given "-h" options
                  || (Z.of_nat (length rest) <? 1)%Z = true).
  { destruct Hhelp as [Hh | ->].
    - apply option_given_spec in Hh. rewrite Hh. reflexivity.
    - apply orb_true_r. }
  rewrite Hcond. reflexivity.
Qed.

(** X13: The process ends with status 0 or 1, and with 0 exactly when the
    options were understood, [-h] was not among them, a directory was given
    and constructing, redirecting, dumping and tidying all returned
    normally; an error is reported exactly when one of these four
    raised. *)
Theorem main_exit_status (progName : string) (args : list string) (m : Machine) :
  let res := main DCM4CHE_URL progName args m in
  (exit_status (fst res) = 0%Z \/ exit_status (fst res) = 1%Z) /\
  (exit_status (fst res) = 0%Z <->
   exists options dcmDir rest,
     getopt.getopt args "d:o:h" = inr (options, dcmDir :: rest) /\
     ~ "-h" ∈ map fst options /\
     is_ok (fst (read_dicom dcmDir (option_value "-d" DCM4CHE_URL options)
                   (option_value "-o" "" options) m)) = true) /\
  (forall e, tracebacks (snd res) = [e] <->
   exists options dcmDir rest,
     getopt.getopt args "d:o:h" = inr (options, dcmDir :: rest) /\
     ~ "-h" ∈ map fst options /\
     fst (read_dicom dcmDir (option_value "-d" DCM4CHE_URL options)
            (option_value "-o" "" options) m) = Raise e) /\
  length (tracebacks (snd res)) <= 1.
Proof.
  intros res. subst res. unfold main.
  destruct (getopt.getopt args "d:o:h") as [err | [options pos]] eqn:Hget.
  { simpl. split; [auto |]. split; [| split; [| lia]].
    - split; [discriminate |]. intros (? & ? & ? & Heq & _). discriminate.
    - intros e. split; [discriminate |].
      intros (? & ? & ? & Heq & _). discriminate. }
  destruct (option_given "-h" options) eqn:Hh; simpl.
  { apply option_given_spec in Hh. split; [auto |]. split; [| split; [| lia]].
    - split; [discriminate |].
      intros (? & ? & ? & Heq & Hno & _). injection Heq as <- _. contradiction.
    - intros e. split; [discriminate |].
      intros (? & ? & ? & Heq & Hno & _). injection Heq as <- _. contradiction. }
  assert (Hno : ~ "-h" ∈ map fst options).
  { intros Hin. apply option_given_spec in Hin. congruence. }
  destruct pos as [| dcmDir rest].
  { simpl. split; [auto |]. split; [| split; [| lia]].
    - split; [discriminate |]. intros (? & ? & ? & Heq & _). discriminate.
    - intros e. split; [discriminate |].
      intros (? & ? & ? & Heq & _). discriminate. }
  assert (Hlen : (Z.of_nat (length (dcmDir :: rest)) <? 1)%Z = false)
    by (apply Z.ltb_ge; simpl length; lia).
  rewrite Hlen.
  destruct (read_dicom dcmDir _ _ m) as [[[] | e] m'] eqn:Hrun; simpl.
  - split; [auto |]. split; [| split; [| lia]].
    + split; [| reflexivity]. intros _. exists options, dcmDir, rest.
      rewrite Hrun. auto.
    + intros e. split; [discriminate |].
      intros (? & ? & ? & Heq & _ & Hr). injection Heq as <- <- <-.
      rewrite Hrun in Hr. discriminate.
  - split; [auto |]. split; [| split; [| lia]].
    + split; [discriminate |].
      intros (? & ? & ? & Heq & _ & Hr). injection Heq as <- <- <-.
      rewrite Hrun in Hr. discriminate.
    + intros e'. split.
      * intros Heq. injection Heq as <-. exists options, dcmDir, rest.
        rewrite Hrun. auto.
      * intros (? & ? & ? & Heq & _ & Hr). injection Heq as <- <- <-.
        rewrite Hrun in Hr. simpl in Hr. congruence.
Qed.

(** X14: Everything after the directory is ignored: with a first argument that
    does not start with [-], [main] behaves as if it were the only one, with
    the default dictionary and no output file, even when [-o], [-d] or [-h]
    follow. *)
Theorem main_ignores_after_directory (progName dcmDir : string)
    (extra : list string) (m : Machine) :
  getopt.startswith_char "-" dcmDir = false ->
  main DCM4CHE_URL progName (dcmDir :: extra) m =
    main DCM4CHE_URL progName [dcmDir] m /\
  exit_status (fst (main DCM4CHE_URL progName (dcmDir :: extra) m)) =
    (if is_ok (fst (read_dicom dcmDir DCM4CHE_URL "" m)) then 0 else 1)%Z.
Proof.
  intros Hdash. unfold main. simpl getopt.getopt. rewrite Hdash.
  assert (Hlen : (Z.of_nat (length (dcmDir :: extra)) <? 1)%Z = false)
    by (apply Z.ltb_ge; simpl length; lia).
  cbn [andb]. rewrite Hlen. simpl.
  split; [reflexivity |].
  destruct (read_dicom dcmDir DCM4CHE_URL "" m) as [[[] | e] m']; reflexivity.
Qed.

(** X15: An option that is not understood ends the process before the [try]
    of [main]: for a first argument that is a long option, [--help]
    included, or that starts with a letter other than [d], [o] and [h],
    [getopt] raises; no usage is printed, no study is built and the
    machine is left as it is. *)
Theorem main_rejects_option (progName : string) (c : ascii) (name : string)
    (rest : list string) (m : Machine) :
  (main DCM4CHE_URL progName (("--" +:+ String c name) :: rest) m =
   (Uncaught
      (getopt.Error
         ("option --" +:+ getopt.before_equals (String c name)
          +:+ " not recognized")
         (getopt.before_equals (String c name))),
    {| machine := m; tracebacks := [] |})) /\
  (c <> "d"%char -> c <> "o"%char -> c <> "h"%char -> c <> "-"%char ->
   main DCM4CHE_URL progName (("-" +:+ String c name) :: rest) m =
   (Uncaught
      (getopt.Error
         ("option -" +:+ String c EmptyString +:+ " not recognized")
         (String c EmptyString)),
    {| machine := m; tracebacks := [] |})).
Proof.
  split; [reflexivity |].
  intros Hd Ho Hh Hdash. unfold main.
  assert (Hget : getopt.getopt (("-" +:+ String c name) :: rest) "d:o:h" =
                 inl (getopt.Error
                        ("option -" +:+ String c EmptyString +:+ " not recognized")
                        (String c EmptyString))).
  { change ("-" +:+ String c name) with (String "-"%char (String c name)).
    simpl.
    destruct (Ascii.eqb_spec c "-"); [contradiction |].
    destruct (Ascii.eqb_spec c "d"); [contradiction |].
    destruct (Ascii.eqb_spec c "o"); [contradiction |].
    destruct (Ascii.eqb_spec c "h"); [contradiction |].
    destruct (Ascii.eqb c ":"); reflexivity. }
  rewrite Hget. reflexivity.
Qed.

End CommandLine.

(** ** A whole run *)

Section Run.

Context `{C : Collaborators}.

Variable DCM4CHE_URL : string.

Lemma read_dicom_unfold (dcmDir url output : string) (m : Machine) :
  read_dicom dcmDir url output m =
  match DicomStudy.__init__ dcmDir url m with
  | (Ok study, m1) =>
      match DicomStudy.setOutput output (study, m1) with
      | (Ok _, s1) =>
          match DicomStudy.debug s1 with
          | (Ok _, s2) => (fst (DicomStudy.tidy s2), snd (snd (DicomStudy.tidy s2)))
          | (Raise e, s2) => (Raise e, snd s2)
          end
      | (Raise e, s1) => (Raise e, snd s1)
      end
  | (Raise e, m1) => (Raise e, m1)
  end.
Proof.
  unfold read_dicom, bind.
  destruct (DicomStudy.__init__ dcmDir url m) as [[study | e] m1]; [| reflexivity].
  destruct (DicomStudy.setOutput output (study, m1)) as [[[] | e] [self1 m2]];
    [| reflexivity].
  destruct (DicomStudy.debug (self1, m2)) as [[[] | e] [self2 m3]];
    [| reflexivity].
  destruct (DicomStudy.tidy (self2, m3)) as [r [self3 m4]]. reflexivity.
Qed.

(** A successful construction adds nothing to the log of calls. *)
Lemma init_ok_calls (dcmDir url : string) (m : Machine) (self : DicomStudy.t)
    (m' : Machine) :
  DicomStudy.__init__ dcmDir url m = (Ok self, m') -> calls m' = calls m.
Proof.
  unfold DicomStudy.__init__, bind, get_world, io. simpl.
  destruct (os.path.isdir (fs (world m)) dcmDir); simpl; [| discriminate].
  destruct (DataDictionary_new url (world m)) as [[dd | e] w1]; [| discriminate].
  unfold DicomStudy.__read, bind, DicomStudy.get_self, DicomStudy.on_machine,
    get_world.
  simpl.
  match goal with
  | |- context [for_each ?names DicomStudy.read_one (?s, ?m1)] =>
      pose proof (read_loop names s m1) as Hloop;
      destruct (for_each names DicomStudy.read_one (s, m1)) as [r [self' m1']]
  end.
  destruct r as [[] | e]; [| discriminate].
  destruct Hloop as (new & _ & _ & _ & _ & _ & _ & _ & Hc).
  intros Heq. injection Heq as _ <-. exact Hc.
Qed.



(** X16: When the output file of a run exists already, [main] ends with status 1
    after reporting [IOError("File already exists - ...")], in the state
    the construction left: nothing is dumped, and the instances that were
    constructed are never tidied. *)
Theorem main_output_exists (progName : string) (args : list string) (m : Machine)
    (options : list (string * string)) (dcmDir : string) (rest : list string)
    (self : DicomStudy.t) (m1 : Machine) :
  getopt.getopt args "d:o:h" = inr (options, dcmDir :: rest) ->
  ~ "-h" ∈ map fst options ->
  DicomStudy.__init__ dcmDir (option_value "-d" DCM4CHE_URL options) m
    = (Ok self, m1) ->
  os.access (fs (world m1)) (option_value "-o" "" options) = true ->
  main DCM4CHE_URL progName args m =
    (SystemExit 1,
     {| machine := m1;
        tracebacks :=
          [IOError ("File already exists - " +:+ option_value "-o" "" options)] |})
  /\ calls m1 = calls m.
Proof.
  intros Hget Hno Hinit Hexists.
  split; [| exact (init_ok_calls _ _ _ _ _ Hinit)].
  unfold main. rewrite Hget.
  assert (Hh : option_given "-h" options = false).
  { destruct (option_given "-h" options) eqn:Hh; [| reflexivity].
    apply option_given_spec in Hh. contradiction. }
  assert (Hlen : (Z.of_nat (length (dcmDir :: rest)) <? 1)%Z = false)
    by (apply Z.ltb_ge; simpl length; lia).
  rewrite Hh, Hlen. cbn [orb].
  rewrite read_dicom_unfold, Hinit.
  destruct (init_ok_inv _ _ _ _ _ Hinit) as (dd & w1 & _ & _ & Hnone & _).
  assert (Hne : option_value "-o" "" options <> "").
  { intros Heq. rewrite Heq, access_empty_path in Hexists. discriminate. }
  rewrite (setOutput_unattached self m1 _ Hnone Hne), Hexists. reflexivity.
Qed.



End Run.

(** ** Further properties on the concrete setting *)

Section MoreOnSample.

#[local] Existing Instance Sample.collaborators.

Lemma studyA_constructed :
  DicomStudy.__init__ "/studies/A" "dict" Sample.machine =
  (Ok (fst Sample.studyA), snd Sample.studyA).
Proof. vm_compute. reflexivity. Defined.

Lemma instanceByUID_agrees_with_sequence_witness :
  DicomStudy.__init__ "/studies/A" "dict" Sample.machine =
    (Ok (fst Sample.studyA), snd Sample.studyA) /\
  (DicomStudy.instanceByUID (fst Sample.studyA) "7.7" = Raise (KeyError "7.7") <->
   forall o, o ∈ DicomStudy.__instances (fst Sample.studyA) ->
             DicomInstance_sopInstanceUID (inst o) <> "7.7").
Proof.
  split; [exact studyA_constructed |].
  exact (proj1 (proj2 (proj2 (instanceByUID_agrees_with_sequence
           "/studies/A" "dict" Sample.machine (fst Sample.studyA)
           (snd Sample.studyA) "7.7" studyA_constructed)))).
Defined.

Lemma instanceByUID_retrieves_each_witness :
  DicomStudy.__init__ "/studies/B" "dict" Sample.machine =
    (Ok (fst Sample.studyB), snd Sample.studyB) /\
  DicomStudy.instanceByUID (fst Sample.studyB) "9.1" =
    Ok (Sample.obj 0 "/studies/B/x.dcm" ["D"; "9.1"; "9"; "locked"]).
Proof.
  assert (Hinit : DicomStudy.__init__ "/studies/B" "dict" Sample.machine =
                  (Ok (fst Sample.studyB), snd Sample.studyB))
    by (vm_compute; reflexivity).
  split; [exact Hinit |].
  refine (instanceByUID_retrieves_each "/studies/B" "dict" Sample.machine
            (fst Sample.studyB) (snd Sample.studyB) Hinit _
            (Sample.obj 0 "/studies/B/x.dcm" ["D"; "9.1"; "9"; "locked"]) _).
  - vm_compute. repeat constructor; intros Hin.
    + apply elem_of_cons in Hin. destruct Hin as [Hin | Hin];
        [discriminate | apply elem_of_nil in Hin; contradiction].
    + apply elem_of_nil in Hin. contradiction.
  - apply list_elem_of_lookup. exists 0. vm_compute. reflexivity.
Defined.

Lemma empty_directory_study_witness :
  DicomStudy.numInstances (fst (Sample.construct "/studies/empty")) = 0%Z /\
  DicomStudy.studyInstanceUID (fst (Sample.construct "/studies/empty")) = Ok "".
Proof.
  destruct (empty_directory_study "/studies/empty" "dict" Sample.machine
              (fst (Sample.construct "/studies/empty"))
              (snd (Sample.construct "/studies/empty"))
              "dict" (world Sample.machine))
    as (Hnum & Huid & _);
    [vm_compute; reflexivity | reflexivity | vm_compute; reflexivity |].
  split; assumption.
Defined.

Lemma instances_are_the_recognised_files_witness :
  DicomStudy.__init__ "/studies/A" "dict" Sample.machine =
    (Ok (fst Sample.studyA), snd Sample.studyA) /\
  exists o, o ∈ DicomStudy.__instances (fst Sample.studyA) /\
            dcmName o = "/studies/A/sub/b.dcm".
Proof.
  split; [exact studyA_constructed |].
  destruct (instances_are_the_recognised_files "/studies/A" "dict"
              Sample.machine (fst Sample.studyA) (snd Sample.studyA)
              studyA_constructed)
    as (dd & w1 & Hdd & _ & Hall).
  injection Hdd as <- <-.
  apply (Hall (Dir [("a.dcm", File "D/1.2.3/1.2");
                    ("notes.txt", File "hello");
                    ("sub", Dir [("b.dcm", File "D/1.2.3/1.2")]);
                    ("c.dcm", File "D/1.2.4/1.2")])
              ["sub"; "b.dcm"] "D/1.2.3/1.2");
    [vm_compute; reflexivity | vm_compute; reflexivity | discriminate
    | vm_compute; reflexivity].
Defined.

Lemma debug_header_to_file_witness :
  DicomStudy.__output (fst Sample.studyA_redirected) = Some 0 /\
  held 0 (world (snd (snd (DicomStudy.debug_header
                             (fst Sample.studyA_redirected,
                              snd Sample.studyA_redirected)))))
    = "> Study 1.2" +:+ nl /\
  stdout (world (snd (snd (DicomStudy.debug_header
                             (fst Sample.studyA_redirected,
                              snd Sample.studyA_redirected)))))
    = "".
Proof.
  split; [vm_compute; reflexivity |].
  destruct (debug_header_to_file (fst Sample.studyA_redirected)
              (snd Sample.studyA_redirected) 0
              {| of_path := ["new.txt"]; of_closed := false |})
    as (uid & Huid & _ & _ & Hheld & _ & Hstdout & _);
    [vm_compute; reflexivity | vm_compute; reflexivity | reflexivity |].
  vm_compute in Huid. injection Huid as <-.
  split; [rewrite Hheld | rewrite Hstdout]; vm_compute; reflexivity.
Defined.

Lemma setOutput_new_path_witness :
  DicomStudy.__output (fst Sample.studyA) = None /\
  os.access (fs (world (snd Sample.studyA))) "/new.txt" = false /\
  os.access
    (fs (world (snd (snd (DicomStudy.setOutput "/new.txt"
                            (fst Sample.studyA, snd Sample.studyA))))))
    "/new.txt" = true.
Proof.
  assert (Hnone : DicomStudy.__output (fst Sample.studyA) = None)
    by (vm_compute; reflexivity).
  assert (Hfresh : os.access (fs (world (snd Sample.studyA))) "/new.txt" = false)
    by (vm_compute; reflexivity).
  split; [exact Hnone |]. split; [exact Hfresh |].
  pose proof (setOutput_new_path (fst Sample.studyA) (snd Sample.studyA)
                "/new.txt" Hnone ltac:(discriminate) Hfresh) as Hnew.
  cbv zeta in Hnew.
  assert (Hok : fst (DicomStudy.setOutput "/new.txt"
                       (fst Sample.studyA, snd Sample.studyA)) = Ok tt)
    by (vm_compute; reflexivity).
  rewrite Hok in Hnew. tauto.
Defined.

Lemma tidy_closes_sink_witness :
  DicomStudy.__output (fst Sample.studyA_redirected) = Some 0 /\
  ofiles (world (snd (snd (DicomStudy.tidy (fst Sample.studyA_redirected,
                                            snd Sample.studyA_redirected)))))
  = [{| of_path := ["new.txt"]; of_closed := true |}].
Proof.
  assert (Hout : DicomStudy.__output (fst Sample.studyA_redirected) = Some 0)
    by (vm_compute; reflexivity).
  split; [exact Hout |].
  destruct (tidy_closes_sink (fst Sample.studyA_redirected)
              (snd Sample.studyA_redirected) 0 Hout) as [_ Hkeep].
  destruct Hkeep as [Hclosed _].
  - intros i w. simpl. destruct (String.eqb _ _); reflexivity.
  - rewrite Hclosed; vm_compute; reflexivity.
Defined.

Lemma debug_after_tidy_witness :
  DicomStudy.__output (fst Sample.studyA_redirected) = Some 0 /\
  fst (DicomStudy.debug
         (snd (DicomStudy.tidy (fst Sample.studyA_redirected,
                                snd Sample.studyA_redirected)))) =
  Raise (ValueError "I/O operation on closed file").
Proof.
  assert (Hout : DicomStudy.__output (fst Sample.studyA_redirected) = Some 0)
    by (vm_compute; reflexivity).
  split; [exact Hout |].
  rewrite (debug_after_tidy (fst Sample.studyA_redirected)
             (snd Sample.studyA_redirected) 0 Hout);
    [reflexivity | vm_compute; reflexivity].
Defined.

Lemma main_usage_witness :
  getopt.getopt ["-o"; "x"; "-h"; "/studies/A"] "d:o:h" =
    inr ([("-o", "x"); ("-h", "")], ["/studies/A"]) /\
  main "dict" "prog" ["-o"; "x"; "-h"; "/studies/A"] Sample.machine =
    (SystemExit 1,
     {| machine := printed (usage "prog") Sample.machine; tracebacks := [] |}).
Proof.
  split; [reflexivity |].
  apply (main_usage "dict" "prog" ["-o"; "x"; "-h"; "/studies/A"] Sample.machine
           [("-o", "x"); ("-h", "")] ["/studies/A"]); [reflexivity |].
  left. simpl. apply elem_of_cons. right. apply elem_of_cons. left. reflexivity.
Defined.

Lemma main_ignores_after_directory_witness :
  getopt.startswith_char "-" "/studies/A" = false /\
  main "dict" "prog" ["/studies/A"; "-h"] Sample.machine =
    main "dict" "prog" ["/studies/A"] Sample.machine.
Proof.
  split; [reflexivity |].
  apply (main_ignores_after_directory "dict" "prog" "/studies/A" ["-h"]
           Sample.machine).
  reflexivity.
Defined.

Lemma main_rejects_option_witness :
  main "dict" "prog" ["-x"; "/studies/A"] Sample.machine =
  (Uncaught (getopt.Error "option -x not recognized" "x"),
   {| machine := Sample.machine; tracebacks := [] |}).
Proof.
  apply (proj2 (main_rejects_option "dict" "prog" "x" "" ["/studies/A"]
                  Sample.machine)); discriminate.
Defined.

Lemma main_output_exists_witness :
  getopt.getopt ["-o"; "/out.txt"; "/studies/A"] "d:o:h" =
    inr ([("-o", "/out.txt")], ["/studies/A"]) /\
  main "dict" "prog" ["-o"; "/out.txt"; "/studies/A"] Sample.machine =
    (SystemExit 1,
     {| machine := snd Sample.studyA;
        tracebacks := [IOError "File already exists - /out.txt"] |}).
Proof.
  split; [reflexivity |].
  apply (main_output_exists "dict" "prog" ["-o"; "/out.txt"; "/studies/A"]
           Sample.machine [("-o", "/out.txt")] "/studies/A" []
           (fst Sample.studyA) (snd Sample.studyA)).
  - reflexivity.
  - simpl. intros Hin. apply elem_of_cons in Hin. destruct Hin as [Hin | Hin];
      [discriminate | apply elem_of_nil in Hin; contradiction].
  - vm_compute. reflexivity.
  - vm_compute. reflexivity.
Defined.


End MoreOnSample.
